(** * Unicorn Math Game: session manager, problem generator, leaderboard

    A shallow embedding of [game.py], [models.py] and the leaderboard of
    [utils.py], with the properties of the game's specification proved
    about it.

    Conventions of the embedding.
    - Python [int] is [Z]; Python [str] is a list of Unicode code points
      ([pystr]); [Optional[T]] is [option T].
    - [datetime.utcnow()] is an input of every operation: the instant [now]
      at which the call runs.  ISO timestamps are kept as instants.  A call
      that reads the clock more than once is given this one instant for
      all its readings, which in the program lie microseconds apart; what
      would compare two readings of one call is therefore not stated.
    - [random] is an input as well: every call that draws random numbers
      receives the raw entropy of its draws ([Draws]); [randint] and
      [choice] map the entropy onto their range.
    - [GameManager.active_sessions] is a finite map; the storage module
      [db], which is not part of the sources, is a pair of append-only
      lists. *)

From Stdlib Require Import ZArith NArith Lia List String Ascii DecimalString.
From Stdlib Require Import Permutation Sorted.
From stdpp Require Import gmap list.

Local Open Scope Z_scope.

(** ** Python strings *)

Definition pystr : Type := list N.

(** A literal of ASCII characters as a Python string. *)
Definition py (s : string) : pystr := map N_of_ascii (list_ascii_of_string s).

(** [str(n)] and [f"{n}"] for an integer. *)
Definition str_of_int (n : Z) : pystr := py (NilZero.string_of_int (Z.to_int n)).

Module Unicode.

Local Open Scope N_scope.

(** [str.isspace] on one character, as [str.strip()] uses it:
    the ASCII table 0x09-0x0D, 0x1C-0x20 and the Unicode white space
    above it. *)
Definition isspace (c : N) : bool :=
  ((9 <=? c) && (c <=? 13)) || ((28 <=? c) && (c <=? 32))
  || (c =? 133) || (c =? 160) || (c =? 5760)
  || ((8192 <=? c) && (c <=? 8202))
  || (c =? 8232) || (c =? 8233) || (c =? 8239) || (c =? 8287)
  || (c =? 12288).

(** First code points of the blocks of ten decimal digits (general
    category Nd, Unicode 15.0 as CPython 3.12 ships it); the digits
    U+1D7CE..U+1D7FF are five consecutive blocks. *)
Definition decimal_zeros : list N :=
  [ 0x0030; 0x0660; 0x06F0; 0x07C0; 0x0966; 0x09E6; 0x0A66; 0x0AE6;
    0x0B66; 0x0BE6; 0x0C66; 0x0CE6; 0x0D66; 0x0DE6; 0x0E50; 0x0ED0;
    0x0F20; 0x1040; 0x1090; 0x17E0; 0x1810; 0x1946; 0x19D0; 0x1A80;
    0x1A90; 0x1B50; 0x1BB0; 0x1C40; 0x1C50; 0xA620; 0xA8D0; 0xA900;
    0xA9D0; 0xA9F0; 0xAA50; 0xABF0; 0xFF10; 0x104A0; 0x10D30; 0x11066;
    0x110F0; 0x11136; 0x111D0; 0x112F0; 0x11450; 0x114D0; 0x11650;
    0x116C0; 0x11730; 0x118E0; 0x11950; 0x11C50; 0x11D50; 0x11DA0;
    0x11F50; 0x16A60; 0x16AC0; 0x16B50; 0x1D7CE; 0x1D7D8; 0x1D7E2;
    0x1D7EC; 0x1D7F6; 0x1E140; 0x1E2F0; 0x1E4F0; 0x1E950; 0x1FBF0 ].

(** [Py_UNICODE_TODECIMAL]: the value of a decimal digit. *)
Definition todecimal (c : N) : option Z :=
  match List.find (fun z => (z <=? c) && (c <? z + 10)) decimal_zeros with
  | Some z => Some (Z.of_N (c - z))
  | None => None
  end.

End Unicode.

(** [str.lstrip()], [str.rstrip()] and [str.strip()] without argument. *)
Fixpoint lstrip (s : pystr) : pystr :=
  match s with
  | c :: s' => if Unicode.isspace c then lstrip s' else s
  | [] => []
  end.

Definition rstrip (s : pystr) : pystr := rev (lstrip (rev s)).

Definition strip (s : pystr) : pystr := rstrip (lstrip s).

(** ** [int(str)]

    CPython first maps the text to ASCII: characters below 127 are kept,
    Unicode white space becomes a blank, a decimal digit its ASCII digit,
    anything else an invalid character.  The ASCII text is then read in
    base 10: blanks, an optional sign, digits with single underscores
    between them, blanks.  [None] stands for [ValueError]. *)

Inductive IntChar : Type :=
| CSpace
| CPlus
| CMinus
| CUnderscore
| CDigit (d : Z)
| COther.

Definition int_char (c : N) : IntChar :=
  if (c <? 127)%N then
    if ((9 <=? c) && (c <=? 13) || (c =? 32))%N then CSpace
    else if (c =? 43)%N then CPlus
    else if (c =? 45)%N then CMinus
    else if (c =? 95)%N then CUnderscore
    else if ((48 <=? c) && (c <=? 57))%N then CDigit (Z.of_N (c - 48))
    else COther
  else if Unicode.isspace c then CSpace
  else match Unicode.todecimal c with
       | Some d => CDigit d
       | None => COther
       end.

Fixpoint skip_spaces (s : pystr) : pystr :=
  match s with
  | c :: s' => match int_char c with CSpace => skip_spaces s' | _ => s end
  | [] => []
  end.

(** The run of digits and underscores: [prev] tells that the character
    before was an underscore, [n] counts the digits read, [acc] is their
    value.  Two underscores in a row or one at the end are refused. *)
Fixpoint scan_digits (prev : bool) (n : nat) (acc : Z) (s : pystr)
  : option (Z * nat * pystr) :=
  match s with
  | [] => if prev then None else Some (acc, n, [])
  | c :: s' =>
      match int_char c with
      | CDigit d => scan_digits false (S n) (10 * acc + d) s'
      | CUnderscore => if prev then None else scan_digits true n acc s'
      | _ => if prev then None else Some (acc, n, s)
      end
  end.

(** [sys.int_info.default_max_str_digits]. *)
Definition int_max_str_digits : nat := 4300.

Definition unsigned_int (s : pystr) : option Z :=
  match s with
  | [] => None
  | c :: _ =>
      match int_char c with
      | CUnderscore => None
      | _ =>
          match scan_digits false 0 0 s with
          | Some (v, n, rest) =>
              if (n =? 0)%nat then None
              else if (int_max_str_digits <? n)%nat then None
              else match skip_spaces rest with
                   | [] => Some v
                   | _ :: _ => None
                   end
          | None => None
          end
      end
  end.

Definition py_int (s : pystr) : option Z :=
  match skip_spaces s with
  | [] => None
  | c :: s' =>
      match int_char c with
      | CPlus => unsigned_int s'
      | CMinus => Z.opp <$> unsigned_int s'
      | _ => unsigned_int (c :: s')
      end
  end.

(** ** Problem generator ([GameManager.generate_question]) *)

(** [random.randint(lo, hi)] on the entropy [r]; the ranges of the
    generator are never empty ([randint_ranges_nonempty] below), so the
    [ValueError] of an empty range does not arise. *)
Definition randint (lo hi r : Z) : Z := lo + r mod (hi - lo + 1).

Inductive Operation : Type := Plus | Minus | Times | Divide.

(** [random.choice(['+', '-', '*', '/'])]. *)
Definition choice_operation (r : Z) : Operation :=
  match r mod 4 with
  | 0 => Plus
  | 1 => Minus
  | 2 => Times
  | _ => Divide
  end.

(** The entropy of one call: the choice of the operation and the two
    [randint] draws of the chosen branch, in program order. *)
Record Draws : Type := mkDraws { r_op : Z; r_fst : Z; r_snd : Z }.

(** The local variables of [generate_question] when it returns. *)
Record Generated : Type := mkGenerated {
  g_operation : Operation;
  g_a : Z;
  g_b : Z;
  g_answer : Z;
  g_question : pystr
}.

Definition operator_text (op : Operation) : pystr :=
  match op with
  | Plus => py " + "
  | Minus => py " - "
  | Times => [32; 215; 32]%N
  | Divide => [32; 247; 32]%N
  end.

Definition format_question (a : Z) (op : Operation) (b : Z) : pystr :=
  str_of_int a ++ operator_text op ++ str_of_int b.

Definition generate (d : Draws) : Generated :=
  match choice_operation (r_op d) with
  | Plus =>
      let a := randint 0 99 (r_fst d) in
      let b := randint 0 (99 - a) (r_snd d) in
      mkGenerated Plus a b (a + b) (format_question a Plus b)
  | Minus =>
      let a := randint 0 99 (r_fst d) in
      let b := randint 0 a (r_snd d) in
      mkGenerated Minus a b (a - b) (format_question a Minus b)
  | Times =>
      let max_a := 11 in
      let a := randint 0 max_a (r_fst d) in
      let b := if a =? 0 then randint 0 99 (r_snd d)
               else let max_b := 99 / a in
                    randint 0 (Z.min max_b 9) (r_snd d) in
      mkGenerated Times a b (a * b) (format_question a Times b)
  | Divide =>
      let b := randint 1 9 (r_fst d) in
      let max_k := Z.min 11 (99 / b) in
      let k := randint 0 max_k (r_snd d) in
      let a := b * k in
      mkGenerated Divide a b k (format_question a Divide b)
  end.

Definition generate_question (d : Draws) : pystr * Z :=
  let g := generate d in (g_question g, g_answer g).

(** ** Data model ([models.py], [game.py], [config.py]) *)

Definition timestamp : Type := Z.

Module User.
Record t : Type := mk {
  telegram_id : Z;
  username : option pystr;
  first_name : option pystr;
  last_name : option pystr;
  created_at : timestamp
}.
End User.

Module Attempt.
Record t : Type := mk {
  question_text : pystr;
  expected_answer : Z;
  user_answer : option Z;
  correct : bool;
  answered_at : timestamp
}.
End Attempt.

Module GameResult.
Record t : Type := mk {
  user_telegram_id : Z;
  score : Z;
  total_questions : Z;
  correct_answers : Z;
  started_at : timestamp;
  finished_at : option timestamp;
  attempts : list Attempt.t
}.

(** [GameResult(user_telegram_id=uid)]: the defaults of the dataclass
    and its [__post_init__]. *)
Definition new (uid : Z) (now : timestamp) : t :=
  mk uid 0 0 0 now None [].

(** [self.attempts.append(a)]. *)
Definition append_attempt (a : Attempt.t) (r : t) : t :=
  mk (user_telegram_id r) (score r) (total_questions r) (correct_answers r)
     (started_at r) (finished_at r) (attempts r ++ [a]).
End GameResult.

(** The timer task of a session: the arguments [_game_timer] was started
    with. *)
Record TimerTask : Type := mkTimerTask { timer_user : Z; timer_end : timestamp }.

Module GameSession.
Record t : Type := mk {
  user_id : Z;
  current_question : pystr;
  expected_answer : Z;
  score : Z;
  total_questions : Z;
  correct_answers : Z;
  end_time : timestamp;
  game_result : GameResult.t;
  task : option TimerTask
}.
End GameSession.

Module Config.
Definition GAME_DURATION_SECONDS : Z := 60.
End Config.

(** The storage module [db] is imported by [game.py] and [utils.py] but
    is not among the sources; its functions follow the contract the
    specification gives for the storage (External interfaces). *)
Module db.
(** Modelled from the spec: the contents of the storage, the profiles and
    the finished results, each in the order in which they were stored. *)
Record t : Type := mk {
  users : list User.t;
  game_results : list GameResult.t
}.

Definition empty : t := mk [] [].

(** Modelled from the spec: [db.get_or_create_user], missing from the
    sources.  The first call for an id stores a new profile created at
    [now]; later calls return the stored profile unchanged. *)
Definition get_or_create_user (id : Z) (username first_name last_name : option pystr)
    (now : timestamp) (s : t) : User.t * t :=
  match List.find (fun u => User.telegram_id u =? id) (users s) with
  | Some u => (u, s)
  | None =>
      let u := User.mk id username first_name last_name now in
      (u, mk (users s ++ [u]) (game_results s))
  end.

(** Modelled from the spec: [db.save_game_result], missing from the
    sources.  Append-only: earlier results are never updated or deleted. *)
Definition save_game_result (r : GameResult.t) (s : t) : t :=
  mk (users s) (game_results s ++ [r]).

(** Modelled from the spec: [db.get_all_game_results], missing from the
    sources; the whole collection of results. *)
Definition get_all_game_results (s : t) : list GameResult.t := game_results s.

(** Modelled from the spec: [db.get_all_users], missing from the sources;
    the whole collection of profiles. *)
Definition get_all_users (s : t) : list User.t := users s.
End db.

(** ** Session manager ([GameManager]) *)

(** The state the operations act on: the manager's [active_sessions] and
    the contents of the storage. *)
Record World : Type := mkWorld {
  active_sessions : gmap Z GameSession.t;
  storage : db.t
}.

(** [GameManager()] on an empty storage. *)
Definition init : World := mkWorld ∅ db.empty.

(** The two texts [process_answer] returns as [error_message]: "you have
    no active game, press Start" and "this does not look like a number,
    send a whole answer". *)
Inductive ErrorMessage : Type := NoActiveGameText | NotANumberText.

(** [Tuple[is_valid_number, error_message, next_question, was_correct]]. *)
Definition AnswerResult : Type :=
  (bool * option ErrorMessage * option pystr * option bool)%type.

(** The four outcomes of [process_answer], as the tuples it returns. *)
Definition NoActiveSession : AnswerResult := (false, Some NoActiveGameText, None, None).
Definition Expired : AnswerResult := (false, None, None, None).
Definition InvalidInput : AnswerResult := (false, Some NotANumberText, None, None).
Definition Accepted (was_correct : bool) (next_question : pystr) : AnswerResult :=
  (true, None, Some next_question, Some was_correct).

Definition start_game (user_id : Z) (username first_name last_name : option pystr)
    (end_callback : bool) (now : timestamp) (d : Draws) (w : World)
  : option GameSession.t * World :=
  match active_sessions w !! user_id with
  | Some _ => (None, w)
  | None =>
      let '(_, st) :=
        db.get_or_create_user user_id username first_name last_name now (storage w) in
      let game_result := GameResult.new user_id now in
      let '(question, answer) := generate_question d in
      let end_time := now + Config.GAME_DURATION_SECONDS in
      let task := if end_callback then Some (mkTimerTask user_id end_time) else None in
      let session :=
        GameSession.mk user_id question answer 0 1 0 end_time game_result task in
      (Some session, mkWorld (<[user_id := session]> (active_sessions w)) st)
  end.

(** The result record as [end_game] completes it. *)
Definition finalize (session : GameSession.t) (now : timestamp) : GameResult.t :=
  let r := GameSession.game_result session in
  GameResult.mk (GameResult.user_telegram_id r)
                (GameSession.score session)
                (GameSession.total_questions session)
                (GameSession.correct_answers session)
                (GameResult.started_at r)
                (Some now)
                (GameResult.attempts r).

(** Cancelling the timer task acts on the event loop only; the state kept
    here does not change with it. *)
Definition end_game (user_id : Z) (now : timestamp) (w : World)
  : option GameResult.t * World :=
  match active_sessions w !! user_id with
  | None => (None, w)
  | Some session =>
      let game_result := finalize session now in
      (Some game_result,
       mkWorld (delete user_id (active_sessions w))
               (db.save_game_result game_result (storage w)))
  end.

(** The session after an accepted answer: the attempt is appended to the
    result record, the counters are updated and the next problem is
    stored. *)
Definition answered (session : GameSession.t) (answer_int : Z)
    (now : timestamp) (d : Draws) : GameSession.t :=
  let current_question := GameSession.current_question session in
  let current_expected_answer := GameSession.expected_answer session in
  let was_correct := answer_int =? current_expected_answer in
  let attempt :=
    Attempt.mk current_question current_expected_answer (Some answer_int)
               was_correct now in
  let '(next_question, next_answer) := generate_question d in
  GameSession.mk
    (GameSession.user_id session)
    next_question
    next_answer
    (if was_correct then GameSession.score session + 1
     else GameSession.score session)
    (GameSession.total_questions session + 1)
    (if was_correct then GameSession.correct_answers session + 1
     else GameSession.correct_answers session)
    (GameSession.end_time session)
    (GameResult.append_attempt attempt (GameSession.game_result session))
    (GameSession.task session).

Definition process_answer (user_id : Z) (user_answer : pystr)
    (now : timestamp) (d : Draws) (w : World) : AnswerResult * World :=
  match active_sessions w !! user_id with
  | None => (NoActiveSession, w)
  | Some session =>
      if GameSession.end_time session <=? now then
        (Expired, snd (end_game user_id now w))
      else
        match py_int (strip user_answer) with
        | None => (InvalidInput, w)
        | Some answer_int =>
            let was_correct := answer_int =? GameSession.expected_answer session in
            let session' := answered session answer_int now d in
            (Accepted was_correct (GameSession.current_question session'),
             mkWorld (<[user_id := session']> (active_sessions w)) (storage w))
        end
  end.

(** [_game_timer] once its sleep is over: the callback runs if the session
    is still there.  The callback belongs to the front end. *)
Definition game_timer (user_id : Z) (callback : Z -> World -> World)
    (w : World) : World :=
  match active_sessions w !! user_id with
  | Some _ => callback user_id w
  | None => w
  end.

Definition get_session (user_id : Z) (w : World) : option GameSession.t :=
  active_sessions w !! user_id.

Definition force_end_game (user_id : Z) (now : timestamp) (w : World) : World :=
  match active_sessions w !! user_id with
  | Some _ => snd (end_game user_id now w)
  | None => w
  end.

(** ** Leaderboard ([utils.get_leaderboard]) *)

(** A [dict] with integer keys whose iteration order matters: the items
    in insertion order, every key once. *)
Definition odict (V : Type) : Type := list (Z * V).

Fixpoint dict_mem {V} (k : Z) (d : odict V) : bool :=
  match d with
  | [] => false
  | (k', _) :: d' => (k' =? k) || dict_mem k d'
  end.

(** [d[k] = v]: a present key keeps its place, a new key goes last. *)
Fixpoint dict_set {V} (k : Z) (v : V) (d : odict V) : odict V :=
  match d with
  | [] => [(k, v)]
  | (k', v') :: d' =>
      if k' =? k then (k, v) :: d' else (k', v') :: dict_set k v d'
  end.

(** An update in place of the value stored under [k]. *)
Fixpoint dict_alter {V} (f : V -> V) (k : Z) (d : odict V) : odict V :=
  match d with
  | [] => []
  | (k', v') :: d' =>
      if k' =? k then (k', f v') :: d' else (k', v') :: dict_alter f k d'
  end.

Record Stats : Type := mkStats { best_score : Z; total_games : Z }.

(** [users_dict = {user.telegram_id: user for user in all_users}]. *)
Definition users_dict (all_users : list User.t) : gmap Z User.t :=
  fold_left (fun m u => <[User.telegram_id u := u]> m) all_users ∅.

(** The body of the loop over [all_results]. *)
Definition count_result (user_stats : odict Stats) (result : GameResult.t)
  : odict Stats :=
  let user_id := GameResult.user_telegram_id result in
  let user_stats :=
    if dict_mem user_id user_stats then user_stats
    else dict_set user_id (mkStats 0 0) user_stats in
  dict_alter
    (fun s => mkStats (Z.max (best_score s) (GameResult.score result))
                      (total_games s + 1))
    user_id user_stats.

Definition collect_stats (all_results : list GameResult.t) : odict Stats :=
  fold_left count_result all_results [].

(** The placeholder name, U+0411 U+0435 U+0437 U+0020 U+0438 U+043C
    U+0435 U+043D U+0438 ("no name"). *)
Definition placeholder : pystr :=
  [1041; 1077; 1079; 32; 1080; 1084; 1077; 1085; 1080]%N.

(** [(user.username if user else None) or (user.first_name if user else
    None) or placeholder]: [or] skips [None] and the empty string. *)
Definition display_name (user : option User.t) : pystr :=
  match (match user with Some u => User.username u | None => None end) with
  | Some (c :: s) => c :: s
  | _ =>
      match (match user with Some u => User.first_name u | None => None end) with
      | Some (c :: s) => c :: s
      | _ => placeholder
      end
  end.

(** A row of the leaderboard: [(username, best_score, total_games)]. *)
Definition Row : Type := (pystr * Z * Z)%type.

Definition row_best (x : Row) : Z := snd (fst x).
Definition row_games (x : Row) : Z := snd x.

(** [key=lambda x: (-x[1], -x[2])] and the order of tuples. *)
Definition sort_key (x : Row) : Z * Z := (- row_best x, - row_games x).

Definition tuple_ltb (p q : Z * Z) : bool :=
  (fst p <? fst q) || ((fst p =? fst q) && (snd p <? snd q)).

(** [list.sort(key=...)] is a stable sort: an element moves in front of
    the elements behind it only where its key is strictly smaller.  The
    result of a stable sort does not depend on the algorithm, so a stable
    insertion sort stands for it. *)
Fixpoint insert_by_key (x : Row) (l : list Row) : list Row :=
  match l with
  | [] => [x]
  | y :: l' =>
      if tuple_ltb (sort_key y) (sort_key x) then y :: insert_by_key x l'
      else x :: y :: l'
  end.

Definition list_sort (l : list Row) : list Row :=
  fold_right insert_by_key [] l.

(** [l[:limit]]: a negative [limit] counts from the end. *)
Definition slice_to {A} (limit : Z) (l : list A) : list A :=
  if limit <? 0 then firstn (Z.to_nat (Z.of_nat (length l) + limit)) l
  else firstn (Z.to_nat limit) l.

Definition get_leaderboard (limit : Z) (s : db.t) : list Row :=
  let all_results := db.get_all_game_results s in
  let all_users := db.get_all_users s in
  let users_dict := users_dict all_users in
  let user_stats := collect_stats all_results in
  let leaderboard :=
    map (fun '(user_id, stats) =>
           (display_name (users_dict !! user_id),
            best_score stats, total_games stats))
        user_stats in
  slice_to limit (list_sort leaderboard).

(** ** Runs of the manager *)

(** One call of the public interface, with the inputs the environment
    gives it. *)
Inductive Call : Type :=
| CallStart (user_id : Z) (username first_name last_name : option pystr)
            (end_callback : bool) (now : timestamp) (d : Draws)
| CallAnswer (user_id : Z) (user_answer : pystr) (now : timestamp) (d : Draws)
| CallEnd (user_id : Z) (now : timestamp)
| CallForceEnd (user_id : Z) (now : timestamp).

Definition run_call (c : Call) (w : World) : World :=
  match c with
  | CallStart u un fn ln cb now d => snd (start_game u un fn ln cb now d w)
  | CallAnswer u txt now d => snd (process_answer u txt now d w)
  | CallEnd u now => snd (end_game u now w)
  | CallForceEnd u now => force_end_game u now w
  end.

(** The states a manager created on an empty storage can be in. *)
Inductive reachable : World -> Prop :=
| reachable_init : reachable init
| reachable_call c w : reachable w -> reachable (run_call c w).

(** An answer as it is submitted: the text, the instant and the draws for
    the next problem. *)
Record Submission : Type := mkSubmission {
  sub_text : pystr;
  sub_now : timestamp;
  sub_draws : Draws
}.

Definition submit (user_id : Z) (x : Submission) (w : World) : World :=
  snd (process_answer user_id (sub_text x) (sub_now x) (sub_draws x) w).

Definition play (user_id : Z) (subs : list Submission) (w : World) : World :=
  fold_left (fun w x => submit user_id x w) subs w.

(** Every submission of the run finds the session live, arrives before
    its end and reads as the expected answer of the moment. *)
Fixpoint all_correctb (user_id : Z) (subs : list Submission) (w : World) : bool :=
  match subs with
  | [] => true
  | x :: xs =>
      match active_sessions w !! user_id with
      | Some s =>
          (sub_now x <? GameSession.end_time s)
          && match py_int (strip (sub_text x)) with
             | Some n => n =? GameSession.expected_answer s
             | None => false
             end
          && all_correctb user_id xs (submit user_id x w)
      | None => false
      end
  end.

Definition all_correct (user_id : Z) (subs : list Submission) (w : World) : Prop :=
  all_correctb user_id subs w = true.

(** ** Invariants *)

(** [correct_answers <= total_questions - 1 <= len(attempts)]. *)
Definition session_invariant (s : GameSession.t) : Prop :=
  GameSession.correct_answers s <= GameSession.total_questions s - 1 /\
  GameSession.total_questions s - 1
    <= Z.of_nat (length (GameResult.attempts (GameSession.game_result s))).

Definition world_invariant (w : World) : Prop :=
  forall user_id s, active_sessions w !! user_id = Some s -> session_invariant s.

(** A text made of white space only. *)
Definition whitespace (ws : pystr) : Prop :=
  Forall (fun c => Unicode.isspace c = true) ws.

(** ** The leaderboard in the words of the specification *)

(** The results of one user, in the order of the collection. *)
Definition results_of (user_id : Z) (results : list GameResult.t)
  : list GameResult.t :=
  List.filter (fun r => GameResult.user_telegram_id r =? user_id) results.

Definition scores_of (user_id : Z) (results : list GameResult.t) : list Z :=
  map GameResult.score (results_of user_id results).

(** The greatest element of a list that is not empty (0 on the empty
    list, which no user who appears in the results has). *)
Definition list_max (l : list Z) : Z :=
  match l with
  | [] => 0
  | x :: l' => fold_left Z.max l' x
  end.

(** The distinct elements of a list in the order of their first
    occurrence. *)
Fixpoint first_occurrences (l : list Z) : list Z :=
  match l with
  | [] => []
  | x :: l' => x :: List.filter (fun y => negb (y =? x)) (first_occurrences l')
  end.

(** The users who appear in the results. *)
Definition player_ids (results : list GameResult.t) : list Z :=
  first_occurrences (map GameResult.user_telegram_id results).

(** The profile stored for a user: the latest one, should the collection
    hold several with the same id. *)
Definition profile_of (user_id : Z) (all_users : list User.t) : option User.t :=
  List.find (fun u => User.telegram_id u =? user_id) (rev all_users).

Definition missing (name : option pystr) : Prop := name = None \/ name = Some [].

(** The display name: the username, else the first name, else the
    placeholder. *)
Inductive display_name_of : option User.t -> pystr -> Prop :=
| name_username u n :
    User.username u = Some n -> n <> [] -> display_name_of (Some u) n
| name_first_name u n :
    missing (User.username u) -> User.first_name u = Some n -> n <> [] ->
    display_name_of (Some u) n
| name_placeholder u :
    missing (User.username u) -> missing (User.first_name u) ->
    display_name_of (Some u) placeholder
| name_no_profile : display_name_of None placeholder.

(** The row of a user: display name, best score, games played. *)
Definition player_row (s : db.t) (user_id : Z) : Row :=
  (display_name (profile_of user_id (db.users s)),
   list_max (scores_of user_id (db.game_results s)),
   Z.of_nat (length (results_of user_id (db.game_results s)))).

(** [x] may stand before [y]: a higher best score, or the same best score
    and at least as many games. *)
Definition ranks_no_lower (x y : Row) : Prop :=
  row_best y < row_best x \/
  (row_best x = row_best y /\ row_games y <= row_games x).

Definition has_rank (b g : Z) (x : Row) : bool :=
  (row_best x =? b) && (row_games x =? g).

(** The ordered dictionary whose keys are [keys] and whose values are
    given by [f]. *)
Definition tabulate {V} (f : Z -> V) (keys : list Z) : odict V :=
  map (fun k => (k, f k)) keys.

(** What the loop has gathered for one user: the greatest of 0 and the
    scores, and the number of results. *)
Definition stats_of (user_id : Z) (results : list GameResult.t) : Stats :=
  mkStats (fold_left Z.max (scores_of user_id results) 0)
          (Z.of_nat (length (results_of user_id results))).

(** The scenario of the specification: two results of userA with the
    scores 3 and 7, one of userB with the score 5. *)
Definition scenario : db.t :=
  db.mk
    [ User.mk 1 (Some (py "userA")) None None 0;
      User.mk 2 (Some (py "userB")) None None 0 ]
    [ GameResult.mk 1 3 5 3 0 (Some 60) [];
      GameResult.mk 2 5 7 5 100 (Some 160) [];
      GameResult.mk 1 7 9 7 200 (Some 260) [] ].

(** Counters that never went below zero: the scores of the live sessions
    and of the stored results. *)
Definition scores_nonneg (w : World) : Prop :=
  (forall u s, active_sessions w !! u = Some s -> 0 <= GameSession.score s) /\
  Forall (fun r => 0 <= GameResult.score r) (db.game_results (storage w)).

(** ** A sample game

    User 7 starts a game at instant 100 and is asked "40 + 2"; three
    answers follow, each the expected one. *)
Definition sample_world : World :=
  snd (start_game 7 None (Some (py "Ann")) None true 100 (mkDraws 0 40 2) init).

Definition sample_run : list Submission :=
  [ mkSubmission (py " 42 ") 110 (mkDraws 3 8 11);
    mkSubmission (py "11") 120 (mkDraws 2 11 9);
    mkSubmission (py "+99") 130 (mkDraws 1 50 20) ].

(** ** What the manager keeps true *)

(** The user a call is made for. *)
Definition call_user (c : Call) : Z :=
  match c with
  | CallStart u _ _ _ _ _ _ => u
  | CallAnswer u _ _ _ => u
  | CallEnd u _ => u
  | CallForceEnd u _ => u
  end.

(** The number of attempts marked correct. *)
Definition count_correct (l : list Attempt.t) : Z :=
  Z.of_nat (length (List.filter Attempt.correct l)).

(** A question with its answer, as [generate_question] can return them. *)
Definition generated (question : pystr) (answer : Z) : Prop :=
  exists d, generate_question d = (question, answer).

(** An attempt as [process_answer] records it: the answer is an integer,
    the mark says whether it is the expected one, and the problem is a
    generated one. *)
Definition attempt_recorded (a : Attempt.t) : Prop :=
  (exists n, Attempt.user_answer a = Some n /\
             Attempt.correct a = (n =? Attempt.expected_answer a)) /\
  generated (Attempt.question_text a) (Attempt.expected_answer a).

(** A live session stored for the user [u]. *)
Definition session_ok (u : Z) (s : GameSession.t) : Prop :=
  let r := GameSession.game_result s in
  GameSession.user_id s = u /\
  GameResult.user_telegram_id r = u /\
  GameResult.finished_at r = None /\
  (GameResult.score r = 0 /\ GameResult.total_questions r = 0 /\
   GameResult.correct_answers r = 0) /\
  GameSession.total_questions s = Z.of_nat (length (GameResult.attempts r)) + 1 /\
  GameSession.score s = GameSession.correct_answers s /\
  GameSession.score s = count_correct (GameResult.attempts r) /\
  generated (GameSession.current_question s) (GameSession.expected_answer s) /\
  Forall attempt_recorded (GameResult.attempts r) /\
  (GameSession.task s = None \/
   GameSession.task s = Some (mkTimerTask u (GameSession.end_time s))).

(** A result as [end_game] stores it. *)
Definition result_ok (r : GameResult.t) : Prop :=
  (exists t, GameResult.finished_at r = Some t) /\
  GameResult.total_questions r = Z.of_nat (length (GameResult.attempts r)) + 1 /\
  GameResult.score r = GameResult.correct_answers r /\
  GameResult.score r = count_correct (GameResult.attempts r) /\
  Forall attempt_recorded (GameResult.attempts r).

Definition world_ok (w : World) : Prop :=
  (forall u s, active_sessions w !! u = Some s -> session_ok u s) /\
  Forall result_ok (db.game_results (storage w)).


(** The sample game with a second user, 8, who started at instant 105 and
    is asked "50 - 20". *)
Definition sample_two_users : World :=
  snd (start_game 8 (Some (py "bob")) None None false 105 (mkDraws 1 50 20)
         sample_world).

(** The sample game once it has been ended at instant 140. *)
Definition sample_finished : World :=
  snd (end_game 7 140 (play 7 sample_run sample_world)).

(** ** The leaderboard for arbitrary scores *)

(** The row of a user as the loop computes it: the best score starts at 0
    and so is never below it. *)
Definition floor_row (s : db.t) (user_id : Z) : Row :=
  (display_name (profile_of user_id (db.users s)),
   Z.max 0 (list_max (scores_of user_id (db.game_results s))),
   Z.of_nat (length (results_of user_id (db.game_results s)))).

(** The games played, summed over the rows. *)
Definition sum_games (rows : list Row) : Z :=
  fold_right (fun x acc => row_games x + acc) 0 rows.

(** ** Rendering the leaderboard ([utils.format_leaderboard]) *)

(** [s.ljust(width)], the effect of the format [<width]. *)
Definition ljust (width : nat) (s : pystr) : pystr :=
  s ++ repeat 32%N (width - length s).

(** The text for an empty leaderboard (a trophy, then "the leaderboard is
    empty, be the first"). *)
Definition empty_board_text : pystr :=
  [127942; 32; 1058; 1072; 1073; 1083; 1080; 1094; 1072; 32; 1083; 1080;
   1076; 1077; 1088; 1086; 1074; 32; 1087; 1091; 1089; 1090; 1072; 46; 32;
   1057; 1090; 1072; 1085; 1100; 32; 1087; 1077; 1088; 1074; 1099; 1084;
   33]%N.

(** The title (a trophy, then "top 10 players" in bold) with its two line
    ends. *)
Definition board_title : pystr :=
  [127942; 32; 42; 42; 1058; 1086; 1087; 45; 49; 48; 32; 1080; 1075; 1088;
   1086; 1082; 1086; 1074; 58; 42; 42; 10; 10]%N.

Definition code_fence : pystr := [96; 96; 96]%N.

(** The column titles: number sign, "player", "best", "games". *)
Definition board_header : pystr :=
  ljust 4 [8470%N] ++ [32%N]
  ++ ljust 20 [1048; 1075; 1088; 1086; 1082]%N ++ [32%N]
  ++ ljust 10 [1051; 1091; 1095; 1096; 1080; 1081]%N ++ [32%N]
  ++ ljust 6 [1048; 1075; 1088]%N ++ [10%N].

(** The name as a row shows it: [username or placeholder], cut to 15
    characters and three dots when longer than 18. *)
Definition shown_name (username : option pystr) : pystr :=
  let name := match username with
              | Some (c :: n) => c :: n
              | _ => placeholder
              end in
  if (18 <? length name)%nat then firstn 15 name ++ py "..." else name.

(** An item of [leaderboard_data]: [(username, best_score, total_games)]. *)
Definition BoardItem : Type := (option pystr * Z * Z)%type.

Definition format_row (idx : Z) (x : BoardItem) : pystr :=
  let '(username, best_score, total_games) := x in
  ljust 4 (str_of_int idx) ++ [32%N]
  ++ ljust 20 (shown_name username) ++ [32%N]
  ++ ljust 10 (str_of_int best_score) ++ [32%N]
  ++ ljust 6 (str_of_int total_games) ++ [10%N].

(** The loop over [enumerate(leaderboard_data, 1)], from the index [idx]
    on. *)
Fixpoint format_rows (idx : Z) (data : list BoardItem) : pystr :=
  match data with
  | [] => []
  | x :: data' => format_row idx x ++ format_rows (idx + 1) data'
  end.

Definition format_leaderboard (leaderboard_data : list BoardItem) : pystr :=
  match leaderboard_data with
  | [] => empty_board_text
  | _ :: _ =>
      board_title
      ++ code_fence ++ [10%N]
      ++ board_header
      ++ repeat 45%N 42 ++ [10%N]
      ++ format_rows 1 leaderboard_data
      ++ code_fence
  end.

(** ** Dictionaries of the models ([to_dict], [from_dict])

    The values the dictionaries hold.  An ISO timestamp string is kept as
    the instant it denotes ([VStamp]), as everywhere here; other strings
    are [VStr]. *)
#[warnings="-register-all"] Inductive pyval : Type :=
| VNone
| VBool (b : bool)
| VInt (n : Z)
| VStr (s : pystr)
| VStamp (t : timestamp)
| VList (l : list pyval)
| VDict (d : list (string * pyval)).

(** A [dict] with string keys, in insertion order, every key once. *)
Definition pydict : Type := list (string * pyval).

Fixpoint dict_lookup (k : string) (d : pydict) : option pyval :=
  match d with
  | [] => None
  | (k', v) :: d' => if String.eqb k' k then Some v else dict_lookup k d'
  end.

(** [d.pop(k, default)]: the value and the dictionary without the key. *)
Definition dict_pop (k : string) (default : pyval) (d : pydict) : pyval * pydict :=
  (match dict_lookup k d with Some v => v | None => default end,
   List.filter (fun kv => negb (String.eqb (fst kv) k)) d).

(** What a [from_dict] call comes to.  Python does not check the values
    against the annotations of the fields: where a value is not of the
    kind its field is read at here, Python still builds an object, one
    that has no counterpart among the typed records; that case is
    [IllTyped].  [RaisesTypeError] is the exception. *)
Inductive loaded (A : Type) : Type :=
| Loaded (x : A)
| RaisesTypeError
| IllTyped.

Arguments Loaded {A} x.
Arguments RaisesTypeError {A}.
Arguments IllTyped {A}.

(** The call of a class with the items of [data] as keywords accepts the
    keywords that are fields and needs the fields without default. *)
Definition keywords_ok (fields required : list string) (data : pydict) : bool :=
  forallb (fun kv => existsb (String.eqb (fst kv)) fields) data
  && forallb (fun k => match dict_lookup k data with Some _ => true | None => false end)
             required.

(** The value of a field, read at its annotated type; [None] when the
    value has another type. *)
Definition field_int (default : option Z) (v : option pyval) : option Z :=
  match v with
  | Some (VInt n) => Some n
  | None => default
  | _ => None
  end.

Definition field_bool (v : option pyval) : option bool :=
  match v with
  | Some (VBool b) => Some b
  | _ => None
  end.

Definition field_str (v : option pyval) : option pystr :=
  match v with
  | Some (VStr s) => Some s
  | _ => None
  end.

Definition field_opt_int (v : option pyval) : option (option Z) :=
  match v with
  | Some (VInt n) => Some (Some n)
  | Some VNone | None => Some None
  | _ => None
  end.

Definition field_opt_str (v : option pyval) : option (option pystr) :=
  match v with
  | Some (VStr s) => Some (Some s)
  | Some VNone | None => Some None
  | _ => None
  end.

Definition field_opt_stamp (v : option pyval) : option (option timestamp) :=
  match v with
  | Some (VStamp t) => Some (Some t)
  | Some VNone | None => Some None
  | _ => None
  end.

(** A timestamp field whose [__post_init__] puts the current instant in
    place of [None]. *)
Definition field_stamp_or_now (now : timestamp) (v : option pyval)
  : option timestamp :=
  match v with
  | Some (VStamp t) => Some t
  | Some VNone | None => Some now
  | _ => None
  end.

Definition of_opt_int (x : option Z) : pyval :=
  match x with Some n => VInt n | None => VNone end.

Definition of_opt_str (x : option pystr) : pyval :=
  match x with Some s => VStr s | None => VNone end.

Definition of_opt_stamp (x : option timestamp) : pyval :=
  match x with Some t => VStamp t | None => VNone end.

Module UserDict.

Definition fields : list string :=
  ["telegram_id"; "username"; "first_name"; "last_name"; "created_at"]%string.

(** [User.to_dict]: [asdict(self)]. *)
Definition to_dict (u : User.t) : pydict :=
  [ ("telegram_id"%string, VInt (User.telegram_id u));
    ("username"%string, of_opt_str (User.username u));
    ("first_name"%string, of_opt_str (User.first_name u));
    ("last_name"%string, of_opt_str (User.last_name u));
    ("created_at"%string, VStamp (User.created_at u)) ].

(** [User.from_dict]: the class called with the items of [data] as
    keywords, with [__post_init__]. *)
Definition from_dict (now : timestamp) (data : pydict) : loaded User.t :=
  if negb (keywords_ok fields ["telegram_id"%string] data) then RaisesTypeError
  else
    match field_int None (dict_lookup "telegram_id" data),
          field_opt_str (dict_lookup "username" data),
          field_opt_str (dict_lookup "first_name" data),
          field_opt_str (dict_lookup "last_name" data),
          field_stamp_or_now now (dict_lookup "created_at" data) with
    | Some id, Some un, Some fn, Some ln, Some t => Loaded (User.mk id un fn ln t)
    | _, _, _, _, _ => IllTyped
    end.

End UserDict.

Module AttemptDict.

Definition fields : list string :=
  ["question_text"; "expected_answer"; "user_answer"; "correct";
   "answered_at"]%string.

Definition required : list string :=
  ["question_text"; "expected_answer"; "user_answer"; "correct"]%string.

(** [Attempt.to_dict]: [asdict(self)]. *)
Definition to_dict (a : Attempt.t) : pydict :=
  [ ("question_text"%string, VStr (Attempt.question_text a));
    ("expected_answer"%string, VInt (Attempt.expected_answer a));
    ("user_answer"%string, of_opt_int (Attempt.user_answer a));
    ("correct"%string, VBool (Attempt.correct a));
    ("answered_at"%string, VStamp (Attempt.answered_at a)) ].

(** [Attempt.from_dict]: the class called with the items of [data] as
    keywords, with [__post_init__]. *)
Definition from_dict (now : timestamp) (data : pydict) : loaded Attempt.t :=
  if negb (keywords_ok fields required data) then RaisesTypeError
  else
    match field_str (dict_lookup "question_text" data),
          field_int None (dict_lookup "expected_answer" data),
          field_opt_int (dict_lookup "user_answer" data),
          field_bool (dict_lookup "correct" data),
          field_stamp_or_now now (dict_lookup "answered_at" data) with
    | Some q, Some e, Some ua, Some c, Some t => Loaded (Attempt.mk q e ua c t)
    | _, _, _, _, _ => IllTyped
    end.

End AttemptDict.

Module GameResultDict.

(** The fields of the class; the keyword [attempts] never reaches the
    class, since [from_dict] pops it first. *)
Definition fields : list string :=
  ["user_telegram_id"; "score"; "total_questions"; "correct_answers";
   "started_at"; "finished_at"; "attempts"]%string.

(** [GameResult.to_dict]: [asdict(self)], which turns the attempts into
    dictionaries already, then the attempts again through their own
    [to_dict]. *)
Definition to_dict (r : GameResult.t) : pydict :=
  [ ("user_telegram_id"%string, VInt (GameResult.user_telegram_id r));
    ("score"%string, VInt (GameResult.score r));
    ("total_questions"%string, VInt (GameResult.total_questions r));
    ("correct_answers"%string, VInt (GameResult.correct_answers r));
    ("started_at"%string, VStamp (GameResult.started_at r));
    ("finished_at"%string, of_opt_stamp (GameResult.finished_at r));
    ("attempts"%string,
     VList (map (fun a => VDict (AttemptDict.to_dict a)) (GameResult.attempts r))) ].

(** One element of [attempts_data]: a dictionary goes through
    [Attempt.from_dict], anything else is kept as it is. *)
Definition load_attempt (now : timestamp) (a : pyval) : loaded Attempt.t :=
  match a with
  | VDict d => AttemptDict.from_dict now d
  | _ => IllTyped
  end.

(** The list comprehension over the elements: the first exception ends
    it; without exception the list is typed if every element is. *)
Fixpoint load_attempts (now : timestamp) (l : list pyval) : loaded (list Attempt.t) :=
  match l with
  | [] => Loaded []
  | a :: l' =>
      match load_attempt now a with
      | RaisesTypeError => RaisesTypeError
      | Loaded x =>
          match load_attempts now l' with
          | Loaded xs => Loaded (x :: xs)
          | RaisesTypeError => RaisesTypeError
          | IllTyped => IllTyped
          end
      | IllTyped =>
          match load_attempts now l' with
          | RaisesTypeError => RaisesTypeError
          | _ => IllTyped
          end
      end
  end.

(** Iterating over [attempts_data]: a list gives its elements; a string
    or a dictionary gives characters or keys, none of them an attempt,
    unless it is empty; [None], a number or a truth value cannot be
    iterated. *)
Definition iterate_attempts (now : timestamp) (attempts_data : pyval)
  : loaded (list Attempt.t) :=
  match attempts_data with
  | VList l => load_attempts now l
  | VStr [] | VDict [] => Loaded []
  | VStr (_ :: _) | VDict (_ :: _) | VStamp _ => IllTyped
  | VNone | VBool _ | VInt _ => RaisesTypeError
  end.

(** [GameResult.from_dict]: the result of the call and the dictionary the
    caller holds afterwards, which has lost its [attempts] key. *)
Definition from_dict (now : timestamp) (data : pydict)
  : loaded GameResult.t * pydict :=
  let '(attempts_data, data) := dict_pop "attempts" (VList []) data in
  (if negb (keywords_ok fields ["user_telegram_id"%string] data) then RaisesTypeError
   else
     match iterate_attempts now attempts_data with
     | RaisesTypeError => RaisesTypeError
     | IllTyped => IllTyped
     | Loaded attempts =>
         match field_int None (dict_lookup "user_telegram_id" data),
               field_int (Some 0) (dict_lookup "score" data),
               field_int (Some 0) (dict_lookup "total_questions" data),
               field_int (Some 0) (dict_lookup "correct_answers" data),
               field_stamp_or_now now (dict_lookup "started_at" data),
               field_opt_stamp (dict_lookup "finished_at" data) with
         | Some u, Some sc, Some tq, Some ca, Some st, Some fin =>
             Loaded (GameResult.mk u sc tq ca st fin attempts)
         | _, _, _, _, _, _ => IllTyped
         end
     end,
   data).

End GameResultDict.
(** * Properties *)

(** ** Reading integers *)

Example py_int_samples :
  py_int (strip (py " 42 ")) = Some 42 /\
  py_int (strip (py "-7")) = Some (-7) /\
  py_int (strip (py "007")) = Some 7 /\
  py_int (strip (py "1_000")) = Some 1000 /\
  py_int (strip [1636; 1634]%N) = Some 42 /\
  py_int (strip (py "4 2")) = None /\
  py_int (strip (py "1__0")) = None /\
  py_int (strip (py "- 7")) = None /\
  py_int (strip (py "0x10")) = None /\
  py_int (strip (py "1e3")) = None.
Proof. vm_compute. repeat split. Qed.

(** ** The generator *)

Example generate_question_samples :
  generate_question (mkDraws 0 40 2) = (py "40 + 2", 42) /\
  generate_question (mkDraws 1 50 20) = (py "50 - 20", 30) /\
  generate_question (mkDraws 2 11 9) = (py "11 " ++ [215%N] ++ py " 9", 99) /\
  generate_question (mkDraws 3 8 11) = (py "99 " ++ [247%N] ++ py " 9", 11).
Proof. vm_compute. repeat split. Qed.

Lemma randint_range (lo hi r : Z) :
  lo <= hi -> lo <= randint lo hi r <= hi.
Proof.
  intros Hle. unfold randint.
  pose proof (Z.mod_pos_bound r (hi - lo + 1)). lia.
Qed.

(** Every value of the range is drawn by some entropy. *)
Lemma randint_onto (lo hi v : Z) :
  lo <= v <= hi -> exists r, randint lo hi r = v.
Proof.
  intros Hv. exists (v - lo). unfold randint.
  rewrite Z.mod_small by lia. lia.
Qed.

Lemma choice_operation_onto (op : Operation) :
  exists r, choice_operation r = op.
Proof.
  destruct op; [exists 0 | exists 1 | exists 2 | exists 3]; reflexivity.
Qed.

Lemma floor_div_99 (a : Z) : 1 <= a -> 0 <= 99 / a /\ a * (99 / a) <= 99.
Proof.
  intros Ha. split.
  - apply Z.div_pos; lia.
  - apply Z.mul_div_le; lia.
Qed.

(** The four ranges the generator draws a second number from hold at
    least one value. *)
Lemma randint_ranges_nonempty (r : Z) :
  0 <= 99 - randint 0 99 r /\
  0 <= randint 0 99 r /\
  (forall a, 1 <= a <= 11 -> 0 <= Z.min (99 / a) 9) /\
  (forall b, 1 <= b <= 9 -> 0 <= Z.min 11 (99 / b)).
Proof.
  pose proof (randint_range 0 99 r ltac:(lia)) as Hr.
  repeat split; try lia.
  - intros a Ha. pose proof (floor_div_99 a ltac:(lia)). lia.
  - intros b Hb. pose proof (floor_div_99 b ltac:(lia)). lia.
Qed.

Lemma generate_plus (d : Draws) :
  choice_operation (r_op d) = Plus ->
  let g := generate d in
  g_operation g = Plus /\ 0 <= g_a g <= 99 /\ 0 <= g_b g <= 99 - g_a g /\
  g_answer g = g_a g + g_b g.
Proof.
  intros Hop. unfold generate. rewrite Hop. cbn.
  pose proof (randint_range 0 99 (r_fst d) ltac:(lia)) as Ha.
  pose proof (randint_range 0 (99 - randint 0 99 (r_fst d)) (r_snd d) ltac:(lia)).
  repeat split; lia.
Qed.

Lemma generate_minus (d : Draws) :
  choice_operation (r_op d) = Minus ->
  let g := generate d in
  g_operation g = Minus /\ 0 <= g_a g <= 99 /\ 0 <= g_b g <= g_a g /\
  g_answer g = g_a g - g_b g.
Proof.
  intros Hop. unfold generate. rewrite Hop. cbn.
  pose proof (randint_range 0 99 (r_fst d) ltac:(lia)) as Ha.
  pose proof (randint_range 0 (randint 0 99 (r_fst d)) (r_snd d) ltac:(lia)).
  repeat split; lia.
Qed.

Lemma generate_times (d : Draws) :
  choice_operation (r_op d) = Times ->
  let g := generate d in
  g_operation g = Times /\ 0 <= g_a g <= 11 /\
  (g_a g = 0 -> 0 <= g_b g <= 99) /\
  (g_a g <> 0 -> 0 <= g_b g <= Z.min (99 / g_a g) 9) /\
  g_answer g = g_a g * g_b g /\ 0 <= g_a g * g_b g <= 99.
Proof.
  intros Hop. unfold generate. rewrite Hop. cbn.
  pose proof (randint_range 0 11 (r_fst d) ltac:(lia)) as Ha.
  set (a := randint 0 11 (r_fst d)) in *.
  destruct (Z.eqb_spec a 0) as [Hz | Hnz].
  - pose proof (randint_range 0 99 (r_snd d) ltac:(lia)).
    rewrite Hz. repeat split; lia.
  - pose proof (floor_div_99 a ltac:(lia)) as [Hq Hm].
    pose proof (randint_range 0 (Z.min (99 / a) 9) (r_snd d) ltac:(lia)) as Hb.
    set (b := randint 0 (Z.min (99 / a) 9) (r_snd d)) in *.
    repeat split; try lia; nia.
Qed.

Lemma generate_divide (d : Draws) :
  choice_operation (r_op d) = Divide ->
  let g := generate d in
  g_operation g = Divide /\ 1 <= g_b g <= 9 /\
  0 <= g_answer g <= Z.min 11 (99 / g_b g) /\
  g_a g = g_b g * g_answer g /\ 0 <= g_a g <= 99.
Proof.
  intros Hop. unfold generate. rewrite Hop. cbn.
  pose proof (randint_range 1 9 (r_fst d) ltac:(lia)) as Hb.
  set (b := randint 1 9 (r_fst d)) in *.
  pose proof (floor_div_99 b ltac:(lia)) as [Hq Hm].
  pose proof (randint_range 0 (Z.min 11 (99 / b)) (r_snd d) ltac:(lia)) as Hk.
  set (k := randint 0 (Z.min 11 (99 / b)) (r_snd d)) in *.
  repeat split; try lia; nia.
Qed.

Lemma generate_text (d : Draws) :
  let g := generate d in
  g_question g = format_question (g_a g) (g_operation g) (g_b g).
Proof.
  unfold generate. destruct (choice_operation (r_op d)); reflexivity.
Qed.

Lemma generate_answer_range (d : Draws) : 0 <= g_answer (generate d) <= 99.
Proof.
  destruct (choice_operation (r_op d)) eqn:Hop.
  - pose proof (generate_plus d Hop) as (_ & ? & ? & ?). lia.
  - pose proof (generate_minus d Hop) as (_ & ? & ? & ?). lia.
  - pose proof (generate_times d Hop) as (_ & _ & _ & _ & ? & ?). lia.
  - pose proof (generate_divide d Hop) as (_ & ? & ? & _). lia.
Qed.

(** C2. Whatever the random draws are, the problem [generate_question]
    returns has an answer between 0 and 99 and its text shows the two
    operands; an addition has [a] in [0,99], [b] in [0,99-a] and answer
    [a+b]; a subtraction has [b <= a] and answer [a-b >= 0]; a
    multiplication has [a] in [0,11], [b] in [0,99] when [a = 0] and in
    [0, min(99//a, 9)] otherwise, and [a*b <= 99]; a division has the
    divisor [b] in [1,9], the quotient (the answer) in
    [0, min(11, 99//b)] and the dividend [a] equal to [b * answer]. *)
Theorem generate_question_ranges (d : Draws) :
  let g := generate d in
  generate_question d = (g_question g, g_answer g) /\
  g_question g = format_question (g_a g) (g_operation g) (g_b g) /\
  0 <= g_answer g <= 99 /\
  match g_operation g with
  | Plus =>
      0 <= g_a g <= 99 /\ 0 <= g_b g <= 99 - g_a g /\
      g_answer g = g_a g + g_b g
  | Minus =>
      0 <= g_a g <= 99 /\ 0 <= g_b g <= g_a g /\
      g_answer g = g_a g - g_b g /\ 0 <= g_a g - g_b g
  | Times =>
      0 <= g_a g <= 11 /\
      (g_a g = 0 -> 0 <= g_b g <= 99) /\
      (g_a g <> 0 -> 0 <= g_b g <= Z.min (99 / g_a g) 9) /\
      g_answer g = g_a g * g_b g /\ g_a g * g_b g <= 99
  | Divide =>
      1 <= g_b g <= 9 /\
      0 <= g_answer g <= Z.min 11 (99 / g_b g) /\
      g_a g = g_b g * g_answer g
  end.
Proof.
  intros g. split; [reflexivity |].
  split; [apply generate_text |].
  split; [apply generate_answer_range |].
  subst g. destruct (choice_operation (r_op d)) eqn:Hop.
  - destruct (generate_plus d Hop) as (-> & ? & ? & ?). auto.
  - destruct (generate_minus d Hop) as (-> & ? & ? & ?).
    repeat split; try tauto; lia.
  - destruct (generate_times d Hop) as (-> & ? & ? & ? & ? & ?).
    repeat split; try tauto; lia.
  - destruct (generate_divide d Hop) as (-> & ? & ? & ? & ?). auto.
Qed.

(** ** The operations of the manager, case by case *)

Lemma start_game_active u un fn ln cb now d w s :
  active_sessions w !! u = Some s ->
  start_game u un fn ln cb now d w = (None, w).
Proof. intros Hs. unfold start_game. now rewrite Hs. Qed.

Lemma start_game_fresh u un fn ln (cb : bool) now d w :
  active_sessions w !! u = None ->
  let g := generate d in
  let s := GameSession.mk u (g_question g) (g_answer g) 0 1 0
             (now + Config.GAME_DURATION_SECONDS) (GameResult.new u now)
             (if cb then Some (mkTimerTask u (now + Config.GAME_DURATION_SECONDS))
              else None) in
  start_game u un fn ln cb now d w =
    (Some s,
     mkWorld (<[u := s]> (active_sessions w))
             (snd (db.get_or_create_user u un fn ln now (storage w)))).
Proof.
  intros Hs. unfold start_game. rewrite Hs.
  destruct (db.get_or_create_user u un fn ln now (storage w)) as [usr st].
  reflexivity.
Qed.

Lemma end_game_none u now w :
  active_sessions w !! u = None -> end_game u now w = (None, w).
Proof. intros Hs. unfold end_game. now rewrite Hs. Qed.

Lemma end_game_live u now w s :
  active_sessions w !! u = Some s ->
  end_game u now w =
    (Some (finalize s now),
     mkWorld (delete u (active_sessions w))
             (db.save_game_result (finalize s now) (storage w))).
Proof. intros Hs. unfold end_game. now rewrite Hs. Qed.

Lemma process_answer_none u txt now d w :
  active_sessions w !! u = None ->
  process_answer u txt now d w = (NoActiveSession, w).
Proof. intros Hs. unfold process_answer. now rewrite Hs. Qed.

Lemma process_answer_expired u txt now d w s :
  active_sessions w !! u = Some s ->
  GameSession.end_time s <= now ->
  process_answer u txt now d w = (Expired, snd (end_game u now w)).
Proof.
  intros Hs Hle. unfold process_answer. rewrite Hs.
  destruct (Z.leb_spec (GameSession.end_time s) now); [reflexivity | lia].
Qed.

Lemma process_answer_invalid u txt now d w s :
  active_sessions w !! u = Some s ->
  now < GameSession.end_time s ->
  py_int (strip txt) = None ->
  process_answer u txt now d w = (InvalidInput, w).
Proof.
  intros Hs Hlt Hp. unfold process_answer. rewrite Hs, Hp.
  destruct (Z.leb_spec (GameSession.end_time s) now); [lia | reflexivity].
Qed.

Lemma process_answer_valid u txt n now d w s :
  active_sessions w !! u = Some s ->
  now < GameSession.end_time s ->
  py_int (strip txt) = Some n ->
  process_answer u txt now d w =
    (Accepted (n =? GameSession.expected_answer s) (g_question (generate d)),
     mkWorld (<[u := answered s n now d]> (active_sessions w)) (storage w)).
Proof.
  intros Hs Hlt Hp. unfold process_answer. rewrite Hs, Hp.
  destruct (Z.leb_spec (GameSession.end_time s) now); [lia | reflexivity].
Qed.

(** The four cases of [process_answer]. *)
Lemma process_answer_cases u txt now d w :
  (active_sessions w !! u = None /\
   process_answer u txt now d w = (NoActiveSession, w)) \/
  (exists s, active_sessions w !! u = Some s /\
     GameSession.end_time s <= now /\
     process_answer u txt now d w = (Expired, snd (end_game u now w))) \/
  (exists s, active_sessions w !! u = Some s /\
     now < GameSession.end_time s /\ py_int (strip txt) = None /\
     process_answer u txt now d w = (InvalidInput, w)) \/
  (exists s n, active_sessions w !! u = Some s /\
     now < GameSession.end_time s /\ py_int (strip txt) = Some n /\
     process_answer u txt now d w =
       (Accepted (n =? GameSession.expected_answer s) (g_question (generate d)),
        mkWorld (<[u := answered s n now d]> (active_sessions w)) (storage w))).
Proof.
  destruct (active_sessions w !! u) as [s |] eqn:Hs.
  - right. destruct (Z.le_gt_cases (GameSession.end_time s) now) as [Hle | Hgt].
    + left. exists s. eauto using process_answer_expired.
    + right. destruct (py_int (strip txt)) as [n |] eqn:Hp.
      * right. exists s, n. eauto using process_answer_valid.
      * left. exists s. eauto using process_answer_invalid.
  - left. eauto using process_answer_none.
Qed.

(** Case analysis on a call of [process_answer]: the result is rewritten
    to the outcome and the state of each case. *)
Ltac answer_cases u txt now d w :=
  let s := fresh "s" in
  let n := fresh "n" in
  let Hs := fresh "Hs" in
  destruct (process_answer_cases u txt now d w)
    as [[_ ->] | [(s & _ & _ & ->) | [(s & _ & _ & _ & ->) | (s & n & Hs & _ & _ & ->)]]];
  cbn [fst snd].

(** ** Accepted answers *)

Lemma answered_fields (s : GameSession.t) (n : Z) (now : timestamp) (d : Draws) :
  let s' := answered s n now d in
  let was_correct := n =? GameSession.expected_answer s in
  GameResult.attempts (GameSession.game_result s') =
    GameResult.attempts (GameSession.game_result s)
    ++ [Attempt.mk (GameSession.current_question s)
                   (GameSession.expected_answer s) (Some n) was_correct now] /\
  GameSession.total_questions s' = GameSession.total_questions s + 1 /\
  GameSession.correct_answers s' =
    GameSession.correct_answers s + (if was_correct then 1 else 0) /\
  GameSession.score s' = GameSession.score s + (if was_correct then 1 else 0) /\
  GameSession.current_question s' = g_question (generate d) /\
  GameSession.expected_answer s' = g_answer (generate d).
Proof.
  unfold answered, generate_question. cbn.
  destruct (n =? GameSession.expected_answer s); repeat split; lia.
Qed.

Lemma all_correct_cons u x xs w :
  all_correct u (x :: xs) w ->
  exists s,
    active_sessions w !! u = Some s /\
    sub_now x < GameSession.end_time s /\
    py_int (strip (sub_text x)) = Some (GameSession.expected_answer s) /\
    all_correct u xs (submit u x w).
Proof.
  unfold all_correct. cbn [all_correctb].
  destruct (active_sessions w !! u) as [s |]; [| discriminate].
  intros H. apply andb_prop in H as [H Hxs]. apply andb_prop in H as [Hnow Hp].
  exists s. split; [reflexivity |].
  split; [now apply Z.ltb_lt |].
  destruct (py_int (strip (sub_text x))) as [n |]; [| discriminate].
  apply Z.eqb_eq in Hp. subst n. auto.
Qed.

(** A run of correct answers adds its length to the three counters. *)
Lemma play_all_correct u subs :
  forall w s,
    active_sessions w !! u = Some s ->
    all_correct u subs w ->
    exists s',
      active_sessions (play u subs w) !! u = Some s' /\
      GameSession.score s' = GameSession.score s + Z.of_nat (length subs) /\
      GameSession.correct_answers s' =
        GameSession.correct_answers s + Z.of_nat (length subs) /\
      GameSession.total_questions s' =
        GameSession.total_questions s + Z.of_nat (length subs).
Proof.
  induction subs as [| x xs IH]; intros w s Hs Hall.
  - exists s. cbn. repeat split; auto; lia.
  - apply all_correct_cons in Hall as (s0 & Hs0 & Hnow & Hp & Hxs).
    assert (s0 = s) by congruence. subst s0.
    pose proof (process_answer_valid u _ _ _ (sub_draws x) w s Hs Hnow Hp) as Hpa.
    set (s1 := answered s (GameSession.expected_answer s) (sub_now x) (sub_draws x)) in *.
    assert (Hs1 : active_sessions (submit u x w) !! u = Some s1).
    { unfold submit. rewrite Hpa. cbn. apply lookup_insert_eq. }
    destruct (IH _ _ Hs1 Hxs) as (s' & Hs' & Hsc & Hco & Hto).
    exists s'. split; [exact Hs' |].
    destruct (answered_fields s (GameSession.expected_answer s) (sub_now x)
                (sub_draws x)) as (_ & Ht & Hc & Hsco & _).
    fold s1 in Ht, Hc, Hsco. rewrite Z.eqb_refl in Hc, Hsco.
    cbn [length]. lia.
Qed.

(** ** The answers of the generator can be typed

    The decimal text of every answer the generator produces reads back as
    that answer, so a correct submission always exists. *)
Lemma answer_text_reads_back (k : Z) :
  0 <= k <= 99 -> py_int (strip (str_of_int k)) = Some k.
Proof.
  intros Hk.
  assert (Hall : forallb
            (fun n => match py_int (strip (str_of_int (Z.of_nat n))) with
                      | Some v => v =? Z.of_nat n
                      | None => false
                      end) (List.seq 0 100) = true) by (vm_compute; reflexivity).
  rewrite forallb_forall in Hall.
  specialize (Hall (Z.to_nat k)).
  rewrite Z2Nat.id in Hall by lia.
  assert (Hin : In (Z.to_nat k) (List.seq 0 100)) by (apply in_seq; lia).
  specialize (Hall Hin).
  destruct (py_int (strip (str_of_int k))) as [v |]; [| discriminate].
  apply Z.eqb_eq in Hall. now subst.
Qed.

(** Runs of correct answers of every length exist: the expected answer,
    written in decimal, is a correct submission as long as the clock has
    not reached the end of the session. *)
Lemma correct_run_exists (N : nat) :
  forall u w s,
    active_sessions w !! u = Some s ->
    0 <= GameSession.expected_answer s <= 99 ->
    exists subs, length subs = N /\ all_correct u subs w.
Proof.
  induction N as [| N IH]; intros u w s Hs Hrange.
  - exists []. split; reflexivity.
  - set (x := mkSubmission (str_of_int (GameSession.expected_answer s))
                (GameSession.end_time s - 1) (mkDraws 0 0 0)).
    assert (Hp : py_int (strip (sub_text x)) = Some (GameSession.expected_answer s))
      by now apply answer_text_reads_back.
    assert (Hnow : sub_now x < GameSession.end_time s) by (cbn; lia).
    pose proof (process_answer_valid u _ _ _ (sub_draws x) w s Hs Hnow Hp) as Hpa.
    set (s1 := answered s (GameSession.expected_answer s) (sub_now x) (sub_draws x)) in *.
    assert (Hs1 : active_sessions (submit u x w) !! u = Some s1).
    { unfold submit. rewrite Hpa. cbn [snd active_sessions]. apply lookup_insert_eq. }
    assert (Hr1 : 0 <= GameSession.expected_answer s1 <= 99).
    { destruct (answered_fields s (GameSession.expected_answer s) (sub_now x)
                  (sub_draws x)) as (_ & _ & _ & _ & _ & He).
      fold s1 in He. rewrite He. apply generate_answer_range. }
    destruct (IH u (submit u x w) s1 Hs1 Hr1) as (subs & Hlen & Hall).
    exists (x :: subs). split; [cbn [length]; now rewrite Hlen |].
    unfold all_correct in *. cbn [all_correctb]. rewrite Hs, Hp, Hall.
    rewrite Z.eqb_refl, !andb_true_r.
    now apply Z.ltb_lt.
Qed.

(** C1. A parsable answer that arrives before the end of a live session
    is accepted.  The session then holds one more attempt, built from the
    question and expected answer it had stored; [total_questions] is one
    higher; [correct_answers] and [score] are one higher exactly when the
    parsed integer is the stored expected answer and unchanged otherwise;
    the stored problem is the next generated one; no other field of the
    session and nothing in the storage changes.  Consequently N correct
    answers in a row on a session just started leave [score = N] and
    [correct_answers = N]. *)
Theorem process_answer_accepted :
  (forall u txt n now d w s,
     active_sessions w !! u = Some s ->
     now < GameSession.end_time s ->
     py_int (strip txt) = Some n ->
     exists s',
       process_answer u txt now d w =
         (Accepted (n =? GameSession.expected_answer s) (g_question (generate d)),
          mkWorld (<[u := s']> (active_sessions w)) (storage w)) /\
       GameResult.attempts (GameSession.game_result s') =
         GameResult.attempts (GameSession.game_result s)
         ++ [Attempt.mk (GameSession.current_question s)
                        (GameSession.expected_answer s) (Some n)
                        (n =? GameSession.expected_answer s) now] /\
       (let r := GameSession.game_result s in
        let r' := GameSession.game_result s' in
        GameResult.user_telegram_id r' = GameResult.user_telegram_id r /\
        GameResult.score r' = GameResult.score r /\
        GameResult.total_questions r' = GameResult.total_questions r /\
        GameResult.correct_answers r' = GameResult.correct_answers r /\
        GameResult.started_at r' = GameResult.started_at r /\
        GameResult.finished_at r' = GameResult.finished_at r) /\
       GameSession.total_questions s' = GameSession.total_questions s + 1 /\
       (n = GameSession.expected_answer s ->
        GameSession.correct_answers s' = GameSession.correct_answers s + 1 /\
        GameSession.score s' = GameSession.score s + 1) /\
       (n <> GameSession.expected_answer s ->
        GameSession.correct_answers s' = GameSession.correct_answers s /\
        GameSession.score s' = GameSession.score s) /\
       (GameSession.current_question s', GameSession.expected_answer s') =
         generate_question d /\
       GameSession.user_id s' = GameSession.user_id s /\
       GameSession.end_time s' = GameSession.end_time s /\
       GameSession.task s' = GameSession.task s)
  /\
  (forall u un fn ln cb now d w s0 w1 subs,
     start_game u un fn ln cb now d w = (Some s0, w1) ->
     all_correct u subs w1 ->
     exists s,
       get_session u (play u subs w1) = Some s /\
       GameSession.score s = Z.of_nat (length subs) /\
       GameSession.correct_answers s = Z.of_nat (length subs)).
Proof.
  split.
  - intros u txt n now d w s Hs Hnow Hp.
    exists (answered s n now d).
    split; [now apply process_answer_valid |].
    destruct (answered_fields s n now d) as (Ha & Ht & Hc & Hsc & Hq & He).
    split; [exact Ha |].
    split; [unfold answered, generate_question; cbn; repeat split |].
    split; [exact Ht |].
    split.
    { intros Heq. apply Z.eqb_eq in Heq. rewrite Heq in Hc, Hsc. lia. }
    split.
    { intros Hne. apply Z.eqb_neq in Hne. rewrite Hne in Hc, Hsc. lia. }
    split; [unfold generate_question; now rewrite Hq, He |].
    repeat split.
  - intros u un fn ln cb now d w s0 w1 subs Hstart Hall.
    destruct (active_sessions w !! u) as [s |] eqn:Hw.
    { rewrite (start_game_active _ _ _ _ _ _ _ _ _ Hw) in Hstart. discriminate. }
    rewrite (start_game_fresh u un fn ln cb now d w Hw) in Hstart.
    injection Hstart as Hs0 Hw1.
    assert (Hlive : active_sessions w1 !! u = Some s0).
    { rewrite <- Hw1. cbn. rewrite Hs0. apply lookup_insert_eq. }
    destruct (play_all_correct u subs w1 s0 Hlive Hall) as (s & Hs & Hsc & Hco & _).
    exists s. split; [exact Hs |].
    rewrite <- Hs0 in Hsc, Hco. cbn in Hsc, Hco. lia.
Qed.

(** ** The invariant of live sessions *)

Lemma answered_invariant s n now d :
  session_invariant s -> session_invariant (answered s n now d).
Proof.
  unfold session_invariant. intros [H1 H2].
  destruct (answered_fields s n now d) as (Ha & Ht & Hc & _).
  rewrite Ha, Ht, Hc, length_app. cbn [length].
  destruct (n =? GameSession.expected_answer s); lia.
Qed.

Lemma end_game_invariant u now w :
  world_invariant w -> world_invariant (snd (end_game u now w)).
Proof.
  intros Hinv. destruct (active_sessions w !! u) as [s |] eqn:Hs.
  - rewrite (end_game_live _ _ _ _ Hs). intros u' s'. cbn [snd active_sessions].
    rewrite lookup_delete_Some. intros [_ H]. eauto.
  - now rewrite (end_game_none _ _ _ Hs).
Qed.

Lemma start_game_invariant u un fn ln cb now d w :
  world_invariant w -> world_invariant (snd (start_game u un fn ln cb now d w)).
Proof.
  intros Hinv. destruct (active_sessions w !! u) as [s |] eqn:Hs.
  - now rewrite (start_game_active _ _ _ _ _ _ _ _ _ Hs).
  - rewrite (start_game_fresh u un fn ln cb now d w Hs). intros u' s'.
    cbn [snd active_sessions].
    rewrite lookup_insert_Some. intros [[_ <-] | [_ H]]; [| eauto].
    unfold session_invariant. cbn. lia.
Qed.

Lemma process_answer_invariant u txt now d w :
  world_invariant w -> world_invariant (snd (process_answer u txt now d w)).
Proof.
  intros Hinv.
  answer_cases u txt now d w; auto using end_game_invariant.
  intros u' s'. cbn [active_sessions].
  rewrite lookup_insert_Some. intros [[_ <-] | [_ H]]; [| eauto].
  apply answered_invariant. eauto.
Qed.

Lemma reachable_invariant w : reachable w -> world_invariant w.
Proof.
  induction 1 as [| c w _ IH].
  - intros u s. cbn. rewrite lookup_empty. discriminate.
  - destruct c; cbn [run_call].
    + now apply start_game_invariant.
    + now apply process_answer_invariant.
    + now apply end_game_invariant.
    + unfold force_end_game. destruct (active_sessions w !! user_id); auto.
      now apply end_game_invariant.
Qed.

(** C3. [correct_answers <= total_questions - 1 <= len(attempts)] holds
    for every live session: a session [start_game] creates starts with
    [score = 0], [total_questions = 1], [correct_answers = 0] and no
    attempts and satisfies it, and if all live sessions satisfy it before
    a [start_game] or a [process_answer] call they all do afterwards,
    whichever of its four outcomes [process_answer] has. *)
Theorem session_invariant_holds :
  (forall u un fn ln cb now d w s w',
     start_game u un fn ln cb now d w = (Some s, w') ->
     GameSession.score s = 0 /\ GameSession.total_questions s = 1 /\
     GameSession.correct_answers s = 0 /\
     GameResult.attempts (GameSession.game_result s) = [] /\
     session_invariant s /\ get_session u w' = Some s)
  /\
  (forall u un fn ln cb now d w,
     world_invariant w ->
     world_invariant (snd (start_game u un fn ln cb now d w)))
  /\
  (forall u txt now d w,
     world_invariant w ->
     world_invariant (snd (process_answer u txt now d w)) /\
     (fst (process_answer u txt now d w) = NoActiveSession \/
      fst (process_answer u txt now d w) = Expired \/
      fst (process_answer u txt now d w) = InvalidInput \/
      exists c q, fst (process_answer u txt now d w) = Accepted c q)).
Proof.
  split; [| split].
  - intros u un fn ln cb now d w s w' Hstart.
    destruct (active_sessions w !! u) as [s0 |] eqn:Hw.
    { rewrite (start_game_active _ _ _ _ _ _ _ _ _ Hw) in Hstart. discriminate. }
    rewrite (start_game_fresh u un fn ln cb now d w Hw) in Hstart.
    injection Hstart as <- <-. unfold session_invariant, get_session.
    cbn [active_sessions]. rewrite lookup_insert_eq. cbn. repeat split; lia.
  - intros. now apply start_game_invariant.
  - intros u txt now d w Hinv. split; [now apply process_answer_invariant |].
    answer_cases u txt now d w; eauto 6.
Qed.

(** ** Input that is not an integer *)

(** C4. While a live session has not reached its end, a text that does
    not read as an integer once trimmed (a decimal, a word, the empty
    string) makes [process_answer] return the invalid-input outcome with
    no next question, and sessions and storage are what they were: no
    counter moves, no attempt is recorded, the stored problem stays. *)
Theorem invalid_input_unchanged u txt now d w s :
  active_sessions w !! u = Some s ->
  now < GameSession.end_time s ->
  py_int (strip txt) = None ->
  process_answer u txt now d w = (InvalidInput, w) /\
  InvalidInput = (false, Some NotANumberText, None, None) /\
  get_session u (snd (process_answer u txt now d w)) = Some s /\
  py_int (strip (py "3.5")) = None /\
  py_int (strip (py "seven")) = None /\
  py_int (strip (py "")) = None.
Proof.
  intros Hs Hnow Hp.
  rewrite (process_answer_invalid u txt now d w s Hs Hnow Hp).
  repeat split; try exact Hs; vm_compute; reflexivity.
Qed.

(** ** The end of a session *)

Lemma finalize_fields s now :
  let r := finalize s now in
  GameResult.score r = GameSession.score s /\
  GameResult.total_questions r = GameSession.total_questions s /\
  GameResult.correct_answers r = GameSession.correct_answers s /\
  GameResult.finished_at r = Some now /\
  GameResult.user_telegram_id r =
    GameResult.user_telegram_id (GameSession.game_result s) /\
  GameResult.started_at r = GameResult.started_at (GameSession.game_result s) /\
  GameResult.attempts r = GameResult.attempts (GameSession.game_result s).
Proof. cbn. repeat split. Qed.

Lemma end_game_effect u now w s :
  active_sessions w !! u = Some s ->
  let w' := snd (end_game u now w) in
  fst (end_game u now w) = Some (finalize s now) /\
  db.game_results (storage w') = db.game_results (storage w) ++ [finalize s now] /\
  db.users (storage w') = db.users (storage w) /\
  get_session u w' = None /\
  (forall u', u' <> u -> get_session u' w' = get_session u' w).
Proof.
  intros Hs. rewrite (end_game_live u now w s Hs). unfold get_session.
  cbn [fst snd active_sessions storage].
  split; [reflexivity |]. split; [reflexivity |]. split; [reflexivity |].
  split; [apply lookup_delete_eq |].
  intros u' Hne. now apply lookup_delete_ne.
Qed.


(** C5. When the clock has reached the end of a live session,
    [process_answer] returns the expired outcome, which carries no next
    question, and does what [end_game] does, and so what a timer whose
    callback ends the game does: the result record is
    completed with the counters of the session and the instant, appended
    to the stored results, and the session leaves the store, so that
    [get_session] finds nothing afterwards. *)
Theorem process_answer_after_end u txt now d w s :
  active_sessions w !! u = Some s ->
  GameSession.end_time s <= now ->
  let w' := snd (process_answer u txt now d w) in
  fst (process_answer u txt now d w) = Expired /\
  Expired = (false, None, None, None) /\
  w' = snd (end_game u now w) /\
  w' = game_timer u (fun u0 w0 => snd (end_game u0 now w0)) w /\
  db.game_results (storage w') = db.game_results (storage w) ++ [finalize s now] /\
  GameResult.finished_at (finalize s now) = Some now /\
  GameResult.score (finalize s now) = GameSession.score s /\
  GameResult.total_questions (finalize s now) = GameSession.total_questions s /\
  GameResult.correct_answers (finalize s now) = GameSession.correct_answers s /\
  get_session u w' = None.
Proof.
  intros Hs Hend.
  rewrite (process_answer_expired u txt now d w s Hs Hend). cbn [fst snd].
  destruct (end_game_effect u now w s Hs) as (_ & Hres & _ & Hget & _).
  repeat split; try assumption.
  unfold game_timer. now rewrite Hs.
Qed.


(** C7. [start_game] for a user who has a live session returns nothing:
    no session is created, nothing is written to the storage, and the live
    session is exactly what it was, field for field. *)
Theorem start_game_already_active u un fn ln cb now d w s :
  get_session u w = Some s ->
  start_game u un fn ln cb now d w = (None, w) /\
  get_session u (snd (start_game u un fn ln cb now d w)) = Some s /\
  storage (snd (start_game u un fn ln cb now d w)) = storage w.
Proof.
  intros Hs. unfold get_session in Hs.
  rewrite (start_game_active u un fn ln cb now d w s Hs).
  repeat split. exact Hs.
Qed.

(** ** White space around the answer *)

Lemma lstrip_spaces ws s : whitespace ws -> lstrip (ws ++ s) = lstrip s.
Proof.
  induction 1 as [| c ws Hc _ IH]; [reflexivity |].
  cbn. now rewrite Hc.
Qed.

Lemma lstrip_app s t :
  lstrip (s ++ t) = lstrip s ++ t \/ (lstrip s = [] /\ lstrip (s ++ t) = lstrip t).
Proof.
  induction s as [| c s IH]; cbn.
  - right. auto.
  - destruct (Unicode.isspace c); [exact IH | left; reflexivity].
Qed.

Lemma rstrip_spaces s ws : whitespace ws -> rstrip (s ++ ws) = rstrip s.
Proof.
  intros Hws. unfold rstrip. rewrite rev_app_distr.
  rewrite lstrip_spaces; [reflexivity |].
  unfold whitespace in *. now apply List.Forall_rev.
Qed.

Lemma strip_spaces ws1 s ws2 :
  whitespace ws1 -> whitespace ws2 -> strip (ws1 ++ s ++ ws2) = strip s.
Proof.
  intros H1 H2. unfold strip. rewrite lstrip_spaces by exact H1.
  destruct (lstrip_app s ws2) as [-> | [Hs ->]].
  - now apply rstrip_spaces.
  - rewrite Hs. rewrite <- (app_nil_r ws2).
    rewrite lstrip_spaces by exact H2. reflexivity.
Qed.

Lemma process_answer_strip u t1 t2 now d w :
  strip t1 = strip t2 ->
  process_answer u t1 now d w = process_answer u t2 now d w.
Proof. intros H. unfold process_answer. now rewrite H. Qed.

(** C9. White space put before and after an answer changes neither the
    outcome of [process_answer] nor the state it leaves; the answer
    [" 42 "] is treated as ["42"]. *)
Theorem process_answer_ignores_outer_spaces u ws1 txt ws2 now d w :
  whitespace ws1 -> whitespace ws2 ->
  process_answer u (ws1 ++ txt ++ ws2) now d w = process_answer u txt now d w /\
  process_answer u (py " 42 ") now d w = process_answer u (py "42") now d w.
Proof.
  intros H1 H2. split.
  - apply process_answer_strip. now apply strip_spaces.
  - apply process_answer_strip. reflexivity.
Qed.

(** ** Expiry comes first *)

(** C10. [process_answer] looks at the clock before it looks at the
    text: once the end of a live session is reached, every text, also one
    that is no integer, gets the expired outcome and not the
    invalid-input one, and the session is finalized and removed: the
    state is the one [end_game] leaves, the result record, completed with
    the score, the question count and the correct-answer count of the
    session and with [finished_at] set, is appended to the stored
    results, and [get_session] finds nothing afterwards.  So the state
    does change, unlike for unparsable text before the end. *)
Theorem expiry_checked_before_parsing u txt now d w s :
  active_sessions w !! u = Some s ->
  GameSession.end_time s <= now ->
  fst (process_answer u txt now d w) = Expired /\
  fst (process_answer u txt now d w) <> InvalidInput /\
  snd (process_answer u txt now d w) = snd (end_game u now w) /\
  get_session u (snd (process_answer u txt now d w)) = None /\
  snd (process_answer u txt now d w) <> w /\
  db.game_results (storage (snd (process_answer u txt now d w))) =
    db.game_results (storage w) ++ [finalize s now] /\
  GameResult.finished_at (finalize s now) = Some now /\
  GameResult.score (finalize s now) = GameSession.score s /\
  GameResult.total_questions (finalize s now) = GameSession.total_questions s /\
  GameResult.correct_answers (finalize s now) = GameSession.correct_answers s /\
  GameResult.attempts (finalize s now) =
    GameResult.attempts (GameSession.game_result s) /\
  (py_int (strip txt) = None ->
   fst (process_answer u txt now d w) = Expired /\
   db.game_results (storage (snd (process_answer u txt now d w))) =
     db.game_results (storage w) ++ [finalize s now]).
Proof.
  intros Hs Hend.
  rewrite (process_answer_expired u txt now d w s Hs Hend). cbn [fst snd].
  destruct (end_game_effect u now w s Hs) as (_ & Hres & _ & Hget & _).
  repeat split; try assumption.
  - discriminate.
  - intros Heq. rewrite Heq in Hget. unfold get_session in Hget. congruence.
Qed.

(** ** The leaderboard *)

Lemma first_occurrences_snoc l x :
  first_occurrences (l ++ [x]) =
    if existsb (Z.eqb x) l then first_occurrences l
    else first_occurrences l ++ [x].
Proof.
  induction l as [| y l IH]; [reflexivity |].
  cbn [app first_occurrences existsb]. rewrite IH.
  destruct (Z.eqb_spec x y) as [-> | Hne]; cbn [orb].
  - destruct (existsb (Z.eqb y) l); [reflexivity |].
    rewrite List.filter_app. cbn. rewrite Z.eqb_refl. cbn.
    now rewrite app_nil_r.
  - destruct (existsb (Z.eqb x) l); [reflexivity |].
    rewrite List.filter_app. cbn.
    destruct (Z.eqb_spec x y); [contradiction | reflexivity].
Qed.

Lemma first_occurrences_In l x : In x (first_occurrences l) <-> In x l.
Proof.
  induction l as [| y l IH]; [reflexivity |].
  cbn [first_occurrences In]. rewrite List.filter_In, IH.
  destruct (Z.eqb_spec x y) as [-> | Hne]; cbn; intuition congruence.
Qed.

Lemma first_occurrences_NoDup l : List.NoDup (first_occurrences l).
Proof.
  induction l as [| y l IH]; cbn [first_occurrences]; constructor.
  - rewrite List.filter_In, Z.eqb_refl. cbn. intros [_ H]. discriminate.
  - now apply List.NoDup_filter.
Qed.

Lemma existsb_eqb_In x l : existsb (Z.eqb x) l = true <-> In x l.
Proof.
  rewrite existsb_exists. split.
  - intros (y & Hy & Heq). apply Z.eqb_eq in Heq. now subst.
  - intros H. exists x. split; [exact H | apply Z.eqb_refl].
Qed.

Lemma dict_mem_tabulate {V} (f : Z -> V) keys k :
  dict_mem k (tabulate f keys) = existsb (Z.eqb k) keys.
Proof.
  induction keys as [| k' keys IH]; [reflexivity |].
  cbn. rewrite <- IH. now rewrite (Z.eqb_sym k k').
Qed.

Lemma dict_set_tabulate_new {V} (f : Z -> V) keys k v :
  ~ In k keys -> dict_set k v (tabulate f keys) = tabulate f keys ++ [(k, v)].
Proof.
  induction keys as [| k' keys IH]; intros Hk; [reflexivity |].
  cbn. destruct (Z.eqb_spec k' k) as [-> | Hne].
  - exfalso. apply Hk. now left.
  - f_equal. apply IH. intros H. apply Hk. now right.
Qed.

Lemma dict_alter_absent {V} (h : V -> V) (d : odict V) k :
  ~ In k (map fst d) -> dict_alter h k d = d.
Proof.
  induction d as [| [k' v] d IH]; intros Hk; [reflexivity |].
  cbn in *. destruct (Z.eqb_spec k' k) as [-> | Hne]; [tauto |].
  f_equal. apply IH. tauto.
Qed.

Lemma dict_alter_tabulate {V} (h : V -> V) (f : Z -> V) keys k :
  List.NoDup keys ->
  dict_alter h k (tabulate f keys) =
    tabulate (fun k' => if k' =? k then h (f k') else f k') keys.
Proof.
  induction 1 as [| k' keys Hk' _ IH]; [reflexivity |].
  cbn. destruct (Z.eqb_spec k' k) as [-> | Hne].
  - f_equal. unfold tabulate. apply map_ext_in. intros j Hj.
    destruct (Z.eqb_spec j k) as [-> | _]; [contradiction | reflexivity].
  - f_equal. exact IH.
Qed.

Lemma dict_alter_app_last {V} (h : V -> V) (d : odict V) k v :
  ~ In k (map fst d) -> dict_alter h k (d ++ [(k, v)]) = d ++ [(k, h v)].
Proof.
  induction d as [| [k' v'] d IH]; intros Hk; cbn in *.
  - now rewrite Z.eqb_refl.
  - destruct (Z.eqb_spec k' k) as [-> | Hne]; [tauto |].
    f_equal. apply IH. tauto.
Qed.

Lemma stats_of_snoc u rs r :
  stats_of u (rs ++ [r]) =
    if u =? GameResult.user_telegram_id r
    then mkStats (Z.max (best_score (stats_of u rs)) (GameResult.score r))
                 (total_games (stats_of u rs) + 1)
    else stats_of u rs.
Proof.
  unfold stats_of, scores_of, results_of. rewrite List.filter_app. cbn [List.filter].
  rewrite (Z.eqb_sym u). destruct (GameResult.user_telegram_id r =? u).
  - rewrite map_app, fold_left_app, length_app. cbn. f_equal. lia.
  - now rewrite app_nil_r.
Qed.

Lemma stats_of_absent u rs :
  ~ In u (map GameResult.user_telegram_id rs) -> stats_of u rs = mkStats 0 0.
Proof.
  intros Hu. unfold stats_of, scores_of, results_of.
  replace (List.filter (fun r => GameResult.user_telegram_id r =? u) rs)
    with (@nil GameResult.t); [reflexivity |].
  symmetry. induction rs as [| r rs IH]; [reflexivity |].
  cbn in *. destruct (Z.eqb_spec (GameResult.user_telegram_id r) u); [tauto |].
  apply IH. tauto.
Qed.

Lemma collect_stats_tabulate results :
  collect_stats results =
    tabulate (fun u => stats_of u results) (player_ids results).
Proof.
  unfold collect_stats, player_ids.
  induction results as [| r rs IH] using rev_ind; [reflexivity |].
  rewrite fold_left_app, map_app. cbn [fold_left map].
  rewrite first_occurrences_snoc, IH. unfold count_result.
  set (u := GameResult.user_telegram_id r).
  set (ids := first_occurrences (map GameResult.user_telegram_id rs)).
  rewrite dict_mem_tabulate.
  assert (Hmem : existsb (Z.eqb u) ids =
                 existsb (Z.eqb u) (map GameResult.user_telegram_id rs)).
  { apply eq_true_iff_eq. rewrite !existsb_eqb_In. apply first_occurrences_In. }
  rewrite Hmem.
  destruct (existsb (Z.eqb u) (map GameResult.user_telegram_id rs)) eqn:Hin.
  - rewrite dict_alter_tabulate by apply first_occurrences_NoDup.
    unfold tabulate. apply map_ext. intros k.
    rewrite stats_of_snoc. fold u. reflexivity.
  - assert (Hnot : ~ In u (map GameResult.user_telegram_id rs)).
    { intros H. apply existsb_eqb_In in H. congruence. }
    assert (Hids : ~ In u ids).
    { intros H. apply Hnot. now apply first_occurrences_In. }
    rewrite dict_set_tabulate_new by exact Hids.
    rewrite dict_alter_app_last.
    2:{ unfold tabulate. rewrite map_map. cbn. now rewrite map_id. }
    unfold tabulate. rewrite map_app. cbn [map]. f_equal.
    + apply map_ext_in. intros k Hk. rewrite stats_of_snoc. fold u.
      destruct (Z.eqb_spec k u) as [-> | _]; [contradiction | reflexivity].
    + rewrite stats_of_snoc. fold u. rewrite Z.eqb_refl.
      rewrite (stats_of_absent u rs Hnot). reflexivity.
Qed.

Lemma users_dict_lookup all_users u :
  users_dict all_users !! u = profile_of u all_users.
Proof.
  unfold users_dict, profile_of.
  induction all_users as [| x us IH] using rev_ind.
  - cbn. apply lookup_empty.
  - rewrite fold_left_app, rev_app_distr. cbn [fold_left rev app List.find].
    rewrite lookup_insert, IH.
    destruct (Z.eqb_spec (User.telegram_id x) u); case_decide; congruence.
Qed.

Lemma fold_max_nonneg (l : list Z) :
  l <> [] -> Forall (fun x => 0 <= x) l -> fold_left Z.max l 0 = list_max l.
Proof.
  destruct l as [| x l]; [congruence |].
  intros _ H. inversion H; subst. cbn. now rewrite Z.max_r.
Qed.

Lemma scores_of_player u results :
  In u (player_ids results) -> scores_of u results <> [].
Proof.
  unfold player_ids. rewrite first_occurrences_In, in_map_iff.
  intros (r & Hr & Hin). unfold scores_of, results_of.
  assert (Hf : In r (List.filter
                       (fun r => GameResult.user_telegram_id r =? u) results)).
  { apply List.filter_In. split; [exact Hin | now apply Z.eqb_eq]. }
  destruct (List.filter _ results); [contradiction | discriminate].
Qed.

Lemma scores_of_nonneg u results :
  Forall (fun r => 0 <= GameResult.score r) results ->
  Forall (fun x => 0 <= x) (scores_of u results).
Proof.
  intros H. unfold scores_of, results_of. rewrite List.Forall_map.
  rewrite List.Forall_forall in *. intros r Hr.
  apply List.filter_In in Hr as [Hr _]. now apply H.
Qed.

(** The rows before sorting. *)
Lemma leaderboard_rows (s : db.t) :
  Forall (fun r => 0 <= GameResult.score r) (db.game_results s) ->
  map (fun '(user_id, stats) =>
         (display_name (users_dict (db.users s) !! user_id),
          best_score stats, total_games stats))
      (collect_stats (db.game_results s))
  = map (player_row s) (player_ids (db.game_results s)).
Proof.
  intros Hnn. rewrite collect_stats_tabulate. unfold tabulate.
  rewrite map_map. apply map_ext_in. intros u Hu.
  unfold player_row. rewrite users_dict_lookup. cbn.
  rewrite fold_max_nonneg; [reflexivity | |].
  - now apply scores_of_player.
  - now apply scores_of_nonneg.
Qed.

Lemma tuple_ltb_ranks x y :
  tuple_ltb (sort_key y) (sort_key x) = false <-> ranks_no_lower x y.
Proof.
  unfold tuple_ltb, sort_key, ranks_no_lower. cbn [fst snd].
  rewrite orb_false_iff, andb_false_iff, !Z.ltb_ge, Z.eqb_neq. lia.
Qed.

Lemma tuple_ltb_strict x y :
  tuple_ltb (sort_key y) (sort_key x) = true -> ranks_no_lower y x.
Proof.
  unfold tuple_ltb, sort_key, ranks_no_lower. cbn [fst snd].
  rewrite orb_true_iff, andb_true_iff, !Z.ltb_lt, Z.eqb_eq. lia.
Qed.

Lemma tuple_ltb_differ x y b g :
  tuple_ltb (sort_key y) (sort_key x) = true ->
  has_rank b g x = true -> has_rank b g y = false.
Proof.
  unfold tuple_ltb, sort_key, has_rank. cbn [fst snd].
  rewrite orb_true_iff, !andb_true_iff, andb_false_iff, !Z.ltb_lt, !Z.eqb_eq,
    !Z.eqb_neq. lia.
Qed.

Lemma ranks_no_lower_trans x y z :
  ranks_no_lower x y -> ranks_no_lower y z -> ranks_no_lower x z.
Proof. unfold ranks_no_lower. lia. Qed.

Lemma insert_by_key_perm x l : Permutation (insert_by_key x l) (x :: l).
Proof.
  induction l as [| y l IH]; [reflexivity |].
  cbn. destruct (tuple_ltb (sort_key y) (sort_key x)); [| reflexivity].
  rewrite IH. apply perm_swap.
Qed.

Lemma list_sort_perm l : Permutation (list_sort l) l.
Proof.
  induction l as [| x l IH]; [reflexivity |].
  cbn. rewrite insert_by_key_perm. now constructor.
Qed.

Lemma insert_by_key_sorted x l :
  StronglySorted ranks_no_lower l ->
  StronglySorted ranks_no_lower (insert_by_key x l).
Proof.
  induction 1 as [| y l Hl IH Hy].
  - cbn. repeat constructor.
  - cbn. destruct (tuple_ltb (sort_key y) (sort_key x)) eqn:Hlt.
    + constructor; [exact IH |].
      apply (Permutation_Forall (Permutation_sym (insert_by_key_perm x l))).
      constructor; [now apply tuple_ltb_strict | exact Hy].
    + apply tuple_ltb_ranks in Hlt.
      constructor; [now constructor |].
      constructor; [exact Hlt |].
      eapply List.Forall_impl; [| exact Hy].
      intros z Hz. eapply ranks_no_lower_trans; eauto.
Qed.

Lemma list_sort_sorted l : StronglySorted ranks_no_lower (list_sort l).
Proof.
  induction l as [| x l IH]; [constructor |].
  cbn. now apply insert_by_key_sorted.
Qed.

Lemma insert_by_key_filter b g x l :
  List.filter (has_rank b g) (insert_by_key x l) =
    List.filter (has_rank b g) (x :: l).
Proof.
  induction l as [| y l IH]; [reflexivity |].
  cbn [insert_by_key].
  destruct (tuple_ltb (sort_key y) (sort_key x)) eqn:Hlt; [| reflexivity].
  cbn [List.filter] in *. rewrite IH.
  destruct (has_rank b g x) eqn:Hx; [| reflexivity].
  now rewrite (tuple_ltb_differ x y b g Hlt Hx).
Qed.

(** The sort is stable: rows of one rank keep their order. *)
Lemma list_sort_stable b g l :
  List.filter (has_rank b g) (list_sort l) = List.filter (has_rank b g) l.
Proof.
  induction l as [| x l IH]; [reflexivity |].
  cbn [list_sort fold_right]. rewrite insert_by_key_filter.
  cbn [List.filter]. fold (list_sort l). now rewrite IH.
Qed.

Lemma slice_to_firstn {A} (limit : Z) (l : list A) :
  0 <= limit -> slice_to limit l = firstn (Z.to_nat limit) l.
Proof.
  intros H. unfold slice_to.
  destruct (Z.ltb_spec limit 0); [lia | reflexivity].
Qed.

Lemma display_name_resolves p : display_name_of p (display_name p).
Proof.
  destruct p as [u |]; [| constructor]. unfold display_name.
  destruct (User.username u) as [[| c n] |] eqn:Hu.
  - destruct (User.first_name u) as [[| c n] |] eqn:Hf.
    + apply name_placeholder; unfold missing; auto.
    + apply name_first_name; unfold missing; auto; discriminate.
    + apply name_placeholder; unfold missing; auto.
  - apply name_username; auto; discriminate.
  - destruct (User.first_name u) as [[| c n] |] eqn:Hf.
    + apply name_placeholder; unfold missing; auto.
    + apply name_first_name; unfold missing; auto; discriminate.
    + apply name_placeholder; unfold missing; auto.
Qed.

(** The leaderboard is the stably sorted list of the players' rows, cut
    after [limit] rows. *)
Lemma leaderboard_ranked limit s :
  0 <= limit ->
  Forall (fun r => 0 <= GameResult.score r) (db.game_results s) ->
  let rows := map (player_row s) (player_ids (db.game_results s)) in
  get_leaderboard limit s = firstn (Z.to_nat limit) (list_sort rows) /\
  Permutation (list_sort rows) rows /\
  StronglySorted ranks_no_lower (list_sort rows) /\
  (forall b g,
     List.filter (has_rank b g) (list_sort rows) = List.filter (has_rank b g) rows).
Proof.
  intros Hl Hnn rows. split.
  - unfold get_leaderboard, db.get_all_game_results, db.get_all_users.
    rewrite slice_to_firstn by exact Hl.
    now rewrite leaderboard_rows.
  - split; [apply list_sort_perm |].
    split; [apply list_sort_sorted |].
    intros b g. apply list_sort_stable.
Qed.

(** C8. For stored results whose scores are not negative (as the scores
    of finished sessions are) and a limit that is not negative, the
    leaderboard holds one row per user who appears in the results, with
    the greatest of the user's scores as best score and the number of the
    user's results as games played, under the display name resolved as
    username, else first name, else the placeholder; the rows are sorted
    by best score and then games played, both descending; rows of equal
    rank keep the order in which their users first appear (the sort is
    stable); the list is cut after [limit] rows.  On the scenario of the
    specification the result is userA (best 7, 2 games), then userB
    (best 5, 1 game). *)
Theorem leaderboard_spec limit s :
  0 <= limit ->
  Forall (fun r => 0 <= GameResult.score r) (db.game_results s) ->
  (exists ranked,
     get_leaderboard limit s = firstn (Z.to_nat limit) ranked /\
     Permutation ranked (map (player_row s) (player_ids (db.game_results s))) /\
     StronglySorted ranks_no_lower ranked /\
     (forall b g,
        List.filter (has_rank b g) ranked =
        List.filter (has_rank b g)
          (map (player_row s) (player_ids (db.game_results s))))) /\
  (forall u,
     display_name_of (profile_of u (db.users s))
                     (fst (fst (player_row s u))) /\
     row_best (player_row s u) = list_max (scores_of u (db.game_results s)) /\
     row_games (player_row s u) =
       Z.of_nat (length (results_of u (db.game_results s)))) /\
  get_leaderboard 10 scenario = [(py "userA", 7, 2); (py "userB", 5, 1)].
Proof.
  intros Hl Hnn. split; [| split].
  - exists (list_sort (map (player_row s) (player_ids (db.game_results s)))).
    now apply leaderboard_ranked.
  - intros u. split; [apply display_name_resolves | split; reflexivity].
  - vm_compute. reflexivity.
Qed.

(** ** Scores never go below zero *)

Lemma end_game_scores_nonneg u now w :
  scores_nonneg w -> scores_nonneg (snd (end_game u now w)).
Proof.
  intros [Hs Hr]. destruct (active_sessions w !! u) as [s |] eqn:Hu.
  - rewrite (end_game_live _ _ _ _ Hu). split; cbn [snd active_sessions storage].
    + intros u' s'. rewrite lookup_delete_Some. intros [_ H]. eauto.
    + cbn. apply Forall_app. split; [exact Hr |].
      constructor; [| constructor]. cbn. eauto.
  - rewrite (end_game_none _ _ _ Hu). now split.
Qed.

Lemma get_or_create_user_results id un fn ln now s :
  db.game_results (snd (db.get_or_create_user id un fn ln now s)) =
  db.game_results s.
Proof.
  unfold db.get_or_create_user.
  destruct (List.find _ (db.users s)); reflexivity.
Qed.

Lemma reachable_scores_nonneg w : reachable w -> scores_nonneg w.
Proof.
  induction 1 as [| c w _ IH].
  - split; [| constructor]. intros u s. cbn. rewrite lookup_empty. discriminate.
  - destruct c; cbn [run_call].
    + destruct (active_sessions w !! user_id) as [s |] eqn:Hu.
      * now rewrite (start_game_active _ _ _ _ _ _ _ _ _ Hu).
      * rewrite (start_game_fresh user_id username first_name last_name
                   end_callback now d w Hu).
        destruct IH as [Hs Hr]. split; cbn [snd active_sessions storage].
        -- intros u' s'. rewrite lookup_insert_Some.
           intros [[_ <-] | [_ H]]; [cbn; lia | eauto].
        -- now rewrite get_or_create_user_results.
    + answer_cases user_id user_answer now d w;
        auto using end_game_scores_nonneg.
      destruct IH as [Hlive Hr]. split; cbn [active_sessions storage]; [| exact Hr].
      intros u' s'. rewrite lookup_insert_Some.
      intros [[_ <-] | [_ H]]; [| eauto].
      destruct (answered_fields s n now d) as (_ & _ & _ & Hsc & _).
      rewrite Hsc. specialize (Hlive _ _ Hs).
      destruct (n =? GameSession.expected_answer s); lia.
    + now apply end_game_scores_nonneg.
    + unfold force_end_game. destruct (active_sessions w !! user_id); auto.
      now apply end_game_scores_nonneg.
Qed.

(** The leaderboard of any storage the manager has filled. *)
Corollary leaderboard_of_reachable limit w :
  reachable w -> 0 <= limit ->
  let rows := map (player_row (storage w))
                  (player_ids (db.game_results (storage w))) in
  get_leaderboard limit (storage w) = firstn (Z.to_nat limit) (list_sort rows) /\
  Permutation (list_sort rows) rows /\
  StronglySorted ranks_no_lower (list_sort rows).
Proof.
  intros Hw Hl rows.
  destruct (reachable_scores_nonneg w Hw) as [_ Hnn].
  destruct (leaderboard_ranked limit (storage w) Hl Hnn) as (H1 & H2 & H3 & _).
  auto.
Qed.

(** ** Instances on the sample game *)

Lemma process_answer_accepted_witness :
  (exists s',
      fst (process_answer 7 (py " 42 ") 110 (mkDraws 3 8 11) sample_world)
        = Accepted true (py "99 " ++ [247%N] ++ py " 9") /\
      GameSession.total_questions s' = 2 /\
      GameSession.score s' = 1) /\
  all_correct 7 sample_run sample_world /\
  (exists s,
      get_session 7 (play 7 sample_run sample_world) = Some s /\
      GameSession.score s = 3 /\ GameSession.correct_answers s = 3).
Proof.
  split; [| split].
  - edestruct (proj1 process_answer_accepted 7 (py " 42 ") 42 110
                 (mkDraws 3 8 11) sample_world)
      as (s' & Hpa & _ & _ & Ht & Hc & _).
    + vm_compute. reflexivity.
    + vm_compute. reflexivity.
    + vm_compute. reflexivity.
    + exists s'. split; [now rewrite Hpa |]. split; [exact Ht |].
      apply Hc. reflexivity.
  - vm_compute. reflexivity.
  - apply (proj2 process_answer_accepted 7 None (Some (py "Ann")) None true 100
             (mkDraws 0 40 2) init
             (GameSession.mk 7 (py "40 + 2") 42 0 1 0 160 (GameResult.new 7 100)
                (Some (mkTimerTask 7 160)))
             sample_world sample_run);
      vm_compute; reflexivity.
Defined.

Lemma session_invariant_holds_witness :
  world_invariant sample_world /\
  world_invariant (play 7 sample_run sample_world).
Proof.
  assert (H0 : world_invariant init).
  { intros u s. cbn. rewrite lookup_empty. discriminate. }
  destruct session_invariant_holds as (_ & Hstart & Hanswer).
  assert (H1 : world_invariant sample_world) by (apply Hstart; exact H0).
  split; [exact H1 |].
  unfold play, sample_run. cbn [fold_left]. unfold submit.
  apply Hanswer. apply Hanswer. apply Hanswer. exact H1.
Defined.

Lemma invalid_input_unchanged_witness :
  process_answer 7 (py "3.5") 110 (mkDraws 3 8 11) sample_world
  = (InvalidInput, sample_world).
Proof.
  edestruct (invalid_input_unchanged 7 (py "3.5") 110 (mkDraws 3 8 11)
               sample_world) as [H _].
  - vm_compute. reflexivity.
  - vm_compute. reflexivity.
  - vm_compute. reflexivity.
  - exact H.
Defined.

Lemma process_answer_after_end_witness :
  fst (process_answer 7 (py "42") 160 (mkDraws 3 8 11) sample_world) = Expired /\
  get_session 7 (snd (process_answer 7 (py "42") 160 (mkDraws 3 8 11) sample_world))
  = None.
Proof.
  edestruct (process_answer_after_end 7 (py "42") 160 (mkDraws 3 8 11)
               sample_world) as (H1 & _ & _ & _ & _ & _ & _ & _ & _ & H2).
  - vm_compute. reflexivity.
  - vm_compute. discriminate.
  - split; [exact H1 | exact H2].
Defined.


Lemma start_game_already_active_witness :
  start_game 7 (Some (py "ann")) None None false 105 (mkDraws 1 2 3) sample_world
  = (None, sample_world).
Proof.
  edestruct (start_game_already_active 7 (Some (py "ann")) None None false 105
               (mkDraws 1 2 3) sample_world) as [H _].
  - vm_compute. reflexivity.
  - exact H.
Defined.

Lemma leaderboard_spec_witness :
  get_leaderboard 10 scenario = [(py "userA", 7, 2); (py "userB", 5, 1)] /\
  exists ranked,
    get_leaderboard 1 scenario = firstn 1 ranked /\
    StronglySorted ranks_no_lower ranked.
Proof.
  assert (H1 : 0 <= 1) by lia.
  assert (H2 : Forall (fun r => 0 <= GameResult.score r) (db.game_results scenario)).
  { repeat constructor; cbn; lia. }
  destruct (leaderboard_spec 1 scenario H1 H2)
    as ((ranked & Hb & _ & Hs & _) & _ & Hsc).
  split; [exact Hsc |].
  exists ranked. split; [exact Hb | exact Hs].
Defined.

Lemma process_answer_ignores_outer_spaces_witness :
  process_answer 7 ([9; 160]%N ++ py "42" ++ [8195; 10]%N) 110 (mkDraws 3 8 11)
                 sample_world
  = process_answer 7 (py "42") 110 (mkDraws 3 8 11) sample_world.
Proof.
  edestruct (process_answer_ignores_outer_spaces 7 [9; 160]%N (py "42")
               [8195; 10]%N 110 (mkDraws 3 8 11) sample_world) as [H _].
  - repeat constructor.
  - repeat constructor.
  - exact H.
Defined.

Lemma expiry_checked_before_parsing_witness :
  py_int (strip (py "seven")) = None /\
  fst (process_answer 7 (py "seven") 160 (mkDraws 3 8 11) sample_world) = Expired /\
  get_session 7 (snd (process_answer 7 (py "seven") 160 (mkDraws 3 8 11)
                        sample_world)) = None /\
  db.game_results
    (storage (snd (process_answer 7 (py "seven") 160 (mkDraws 3 8 11)
                     sample_world)))
  = [GameResult.mk 7 0 1 0 100 (Some 160) []].
Proof.
  split; [vm_compute; reflexivity |].
  edestruct (expiry_checked_before_parsing 7 (py "seven") 160 (mkDraws 3 8 11)
               sample_world) as (H1 & _ & _ & H2 & _ & H3 & _).
  - vm_compute. reflexivity.
  - vm_compute. discriminate.
  - split; [exact H1 |]. split; [exact H2 | exact H3].
Defined.

(** * Further properties of the code *)

(** ** Calls and the sessions of other users *)

(** X1. A call made for one user leaves the session of every other user
    as it is, whatever the call and its outcome. *)
Theorem call_leaves_other_users (c : Call) (w : World) (u' : Z) :
  u' <> call_user c ->
  get_session u' (run_call c w) = get_session u' w.
Proof.
  intros Hne. unfold get_session.
  assert (Hend : forall u now,
             u' <> u ->
             active_sessions (snd (end_game u now w)) !! u' = active_sessions w !! u').
  { intros u now Hu. destruct (active_sessions w !! u) as [s |] eqn:Hs.
    - rewrite (end_game_live _ _ _ _ Hs). cbn [snd active_sessions].
      now apply lookup_delete_ne.
    - now rewrite (end_game_none _ _ _ Hs). }
  destruct c; cbn [run_call call_user] in *.
  - destruct (active_sessions w !! user_id) as [s |] eqn:Hs.
    + now rewrite (start_game_active _ _ _ _ _ _ _ _ _ Hs).
    + rewrite (start_game_fresh user_id username first_name last_name
                 end_callback now d w Hs).
      cbn [snd active_sessions]. now apply lookup_insert_ne.
  - answer_cases user_id user_answer now d w; auto.
    cbn [active_sessions]. now apply lookup_insert_ne.
  - now apply Hend.
  - unfold force_end_game. destruct (active_sessions w !! user_id); auto.
Qed.

Lemma call_leaves_other_users_witness :
  exists s,
    get_session 8 sample_two_users = Some s /\
    GameSession.expected_answer s = 30 /\
    get_session 7 (run_call (CallEnd 7 150) sample_two_users) = None /\
    get_session 8 (run_call (CallEnd 7 150) sample_two_users) = Some s /\
    get_session 8 (run_call (CallAnswer 7 (py "42") 110 (mkDraws 3 8 11))
                     sample_two_users) = Some s.
Proof.
  eexists. split; [vm_compute; reflexivity |].
  split; [reflexivity |]. split; [vm_compute; reflexivity |].
  split.
  - rewrite (call_leaves_other_users (CallEnd 7 150) sample_two_users 8).
    + vm_compute. reflexivity.
    + vm_compute. discriminate.
  - rewrite (call_leaves_other_users
               (CallAnswer 7 (py "42") 110 (mkDraws 3 8 11)) sample_two_users 8).
    + vm_compute. reflexivity.
    + vm_compute. discriminate.
Defined.

(** ** The state of every reachable world *)

Lemma count_correct_snoc l a :
  count_correct (l ++ [a]) =
    count_correct l + (if Attempt.correct a then 1 else 0).
Proof.
  unfold count_correct. rewrite List.filter_app, length_app. cbn.
  destruct (Attempt.correct a); cbn; lia.
Qed.

Lemma count_correct_bounds l : 0 <= count_correct l <= Z.of_nat (length l).
Proof.
  unfold count_correct. pose proof (List.filter_length_le Attempt.correct l). lia.
Qed.

Lemma started_session_ok u (cb : bool) now d :
  session_ok u
    (GameSession.mk u (g_question (generate d)) (g_answer (generate d)) 0 1 0
       (now + Config.GAME_DURATION_SECONDS) (GameResult.new u now)
       (if cb then Some (mkTimerTask u (now + Config.GAME_DURATION_SECONDS))
        else None)).
Proof.
  unfold session_ok. cbn.
  repeat split; try reflexivity.
  - exists d. reflexivity.
  - constructor.
  - destruct cb; auto.
Qed.

Lemma answered_session_ok u s n now d :
  session_ok u s -> session_ok u (answered s n now d).
Proof.
  unfold session_ok. intros (Hu & Hr & Hf & Hz & Ht & Hsc & Hcc & Hg & Hatt & Htask).
  unfold answered, generate_question. cbn.
  rewrite length_app, count_correct_snoc. cbn [length Attempt.correct].
  repeat split; try assumption; try tauto.
  - lia.
  - destruct (n =? GameSession.expected_answer s); lia.
  - destruct (n =? GameSession.expected_answer s); lia.
  - exists d. reflexivity.
  - apply Forall_app. split; [exact Hatt |].
    constructor; [| constructor].
    unfold attempt_recorded. cbn.
    split; [exists n; auto | exact Hg].
Qed.

Lemma finalize_result_ok u s now : session_ok u s -> result_ok (finalize s now).
Proof.
  unfold session_ok, result_ok.
  intros (Hu & Hr & Hf & Hz & Ht & Hsc & Hcc & Hg & Hatt & Htask).
  cbn. repeat split; try assumption. now exists now.
Qed.

Lemma end_game_world_ok u now w :
  world_ok w -> world_ok (snd (end_game u now w)).
Proof.
  intros [Hs Hr]. destruct (active_sessions w !! u) as [s |] eqn:Hu.
  - rewrite (end_game_live _ _ _ _ Hu). split; cbn [snd active_sessions storage].
    + intros u' s'. rewrite lookup_delete_Some. intros [_ H]. eauto.
    + cbn. apply Forall_app. split; [exact Hr |].
      constructor; [| constructor]. eapply finalize_result_ok. eauto.
  - now rewrite (end_game_none _ _ _ Hu).
Qed.

Lemma reachable_world_ok w : reachable w -> world_ok w.
Proof.
  induction 1 as [| c w _ IH].
  - split; [| constructor]. intros u s. cbn. rewrite lookup_empty. discriminate.
  - destruct c; cbn [run_call].
    + destruct (active_sessions w !! user_id) as [s |] eqn:Hu.
      * now rewrite (start_game_active _ _ _ _ _ _ _ _ _ Hu).
      * rewrite (start_game_fresh user_id username first_name last_name
                   end_callback now d w Hu).
        destruct IH as [Hs Hr]. split; cbn [snd active_sessions storage].
        -- intros u' s'. rewrite lookup_insert_Some.
           intros [[<- <-] | [_ H]]; [apply started_session_ok | eauto].
        -- now rewrite get_or_create_user_results.
    + destruct (process_answer_cases user_id user_answer now d w)
        as [[_ ->] | [(s & _ & _ & ->) | [(s & _ & _ & _ & ->) | (s & n & Hs & _ & _ & ->)]]];
        cbn [snd]; auto using end_game_world_ok.
      destruct IH as [Hlive Hr]. split; cbn [active_sessions storage]; [| exact Hr].
      intros u' s'. rewrite lookup_insert_Some.
      intros [[<- <-] | [_ H]]; [| eauto].
      apply answered_session_ok; eauto.
    + now apply end_game_world_ok.
    + unfold force_end_game. destruct (active_sessions w !! user_id); auto.
      now apply end_game_world_ok.
Qed.

Lemma sample_reachable : reachable (play 7 sample_run sample_world).
Proof.
  apply (reachable_call (CallAnswer 7 (py "+99") 130 (mkDraws 1 50 20))).
  apply (reachable_call (CallAnswer 7 (py "11") 120 (mkDraws 2 11 9))).
  apply (reachable_call (CallAnswer 7 (py " 42 ") 110 (mkDraws 3 8 11))).
  apply (reachable_call (CallStart 7 None (Some (py "Ann")) None true 100
                           (mkDraws 0 40 2))).
  constructor.
Qed.

Lemma sample_finished_reachable : reachable sample_finished.
Proof. apply (reachable_call (CallEnd 7 140)). apply sample_reachable. Qed.

(** X2. In every state the manager can reach, a live session counts one
    question more than it has attempts (the outstanding one), its score
    and its count of correct answers are the same number, namely the
    number of attempts marked correct, and the counters of its result
    record are still zero and [finished_at] unset: the record is only
    filled in by [end_game]. *)
Theorem live_session_counters (w : World) (u : Z) (s : GameSession.t) :
  reachable w ->
  get_session u w = Some s ->
  let r := GameSession.game_result s in
  GameSession.total_questions s = Z.of_nat (length (GameResult.attempts r)) + 1 /\
  GameSession.correct_answers s = GameSession.score s /\
  GameSession.score s = count_correct (GameResult.attempts r) /\
  0 <= GameSession.score s <= Z.of_nat (length (GameResult.attempts r)) /\
  GameResult.score r = 0 /\ GameResult.total_questions r = 0 /\
  GameResult.correct_answers r = 0 /\ GameResult.finished_at r = None.
Proof.
  intros Hw Hs. destruct (reachable_world_ok w Hw) as [Hlive _].
  destruct (Hlive u s Hs) as (_ & _ & Hf & (Hz1 & Hz2 & Hz3) & Ht & Hsc & Hcc & _).
  cbn zeta. pose proof (count_correct_bounds (GameResult.attempts (GameSession.game_result s))).
  repeat split; try assumption; try lia.
Qed.

Lemma live_session_counters_witness :
  exists s,
    get_session 7 (play 7 sample_run sample_world) = Some s /\
    GameSession.total_questions s = 4 /\ GameSession.score s = 3.
Proof.
  eexists. split; [vm_compute; reflexivity |].
  edestruct (live_session_counters (play 7 sample_run sample_world) 7)
    as (Ht & _ & Hc & _).
  - exact sample_reachable.
  - vm_compute. reflexivity.
  - split; [exact Ht | exact Hc].
Defined.

(** X3. Every result in the storage of a reachable state is finished:
    [finished_at] is set, [total_questions] is the number of recorded
    attempts plus one, and [score] and [correct_answers] both equal the
    number of attempts marked correct, so the score never exceeds the
    number of attempts. *)
Theorem stored_result_counters (w : World) (r : GameResult.t) :
  reachable w ->
  In r (db.game_results (storage w)) ->
  (exists t, GameResult.finished_at r = Some t) /\
  GameResult.total_questions r = Z.of_nat (length (GameResult.attempts r)) + 1 /\
  GameResult.correct_answers r = GameResult.score r /\
  GameResult.score r = count_correct (GameResult.attempts r) /\
  0 <= GameResult.score r <= GameResult.total_questions r - 1.
Proof.
  intros Hw Hr. destruct (reachable_world_ok w Hw) as [_ Hres].
  rewrite List.Forall_forall in Hres.
  destruct (Hres r Hr) as (Hf & Ht & Hsc & Hcc & _).
  pose proof (count_correct_bounds (GameResult.attempts r)).
  repeat split; try assumption; try lia.
Qed.

Lemma stored_result_counters_witness :
  exists r,
    In r (db.game_results (storage sample_finished)) /\
    GameResult.total_questions r = 4 /\ GameResult.score r = 3.
Proof.
  eexists. split; [vm_compute; left; reflexivity |].
  edestruct (stored_result_counters sample_finished) as (_ & Ht & _ & Hc & _).
  - exact sample_finished_reachable.
  - vm_compute. left. reflexivity.
  - split; [exact Ht | exact Hc].
Defined.

(** X4. Every attempt a reachable state holds, in a live session or in a
    stored result, has an integer as [user_answer] (never [None]) and is
    marked correct exactly when that integer is its [expected_answer]. *)
Theorem recorded_attempts_wellformed (w : World) :
  reachable w ->
  (forall u s a,
     get_session u w = Some s ->
     In a (GameResult.attempts (GameSession.game_result s)) ->
     exists n, Attempt.user_answer a = Some n /\
               (Attempt.correct a = true <-> n = Attempt.expected_answer a)) /\
  (forall r a,
     In r (db.game_results (storage w)) ->
     In a (GameResult.attempts r) ->
     exists n, Attempt.user_answer a = Some n /\
               (Attempt.correct a = true <-> n = Attempt.expected_answer a)).
Proof.
  intros Hw. destruct (reachable_world_ok w Hw) as [Hlive Hres].
  assert (Hatt : forall a,
             attempt_recorded a ->
             exists n, Attempt.user_answer a = Some n /\
                       (Attempt.correct a = true <-> n = Attempt.expected_answer a)).
  { intros a ((n & Hn & Hc) & _).
    exists n. split; [exact Hn |]. rewrite Hc. apply Z.eqb_eq. }
  split.
  - intros u s a Hs Ha.
    destruct (Hlive u s Hs) as (_ & _ & _ & _ & _ & _ & _ & _ & Hall & _).
    rewrite List.Forall_forall in Hall. apply Hatt. now apply Hall.
  - intros r a Hr Ha. rewrite List.Forall_forall in Hres.
    destruct (Hres r Hr) as (_ & _ & _ & _ & Hall).
    rewrite List.Forall_forall in Hall. apply Hatt. now apply Hall.
Qed.

Lemma recorded_attempts_wellformed_witness :
  (exists s a n,
     get_session 7 (play 7 sample_run sample_world) = Some s /\
     In a (GameResult.attempts (GameSession.game_result s)) /\
     Attempt.user_answer a = Some n) /\
  (exists r a n,
     In r (db.game_results (storage sample_finished)) /\
     In a (GameResult.attempts r) /\
     Attempt.user_answer a = Some n).
Proof.
  pose (s := answered (answered (answered
               (GameSession.mk 7 (py "40 + 2") 42 0 1 0 160 (GameResult.new 7 100)
                  (Some (mkTimerTask 7 160)))
               42 110 (mkDraws 3 8 11)) 11 120 (mkDraws 2 11 9)) 99 130
               (mkDraws 1 50 20)).
  pose (a := Attempt.mk (py "40 + 2") 42 (Some 42) true 110).
  assert (Hs : get_session 7 (play 7 sample_run sample_world) = Some s)
    by (vm_compute; reflexivity).
  assert (Ha : In a (GameResult.attempts (GameSession.game_result s)))
    by (vm_compute; left; reflexivity).
  assert (Hr : In (finalize s 140) (db.game_results (storage sample_finished)))
    by (vm_compute; left; reflexivity).
  assert (Ha' : In a (GameResult.attempts (finalize s 140)))
    by (vm_compute; left; reflexivity).
  split.
  - destruct (proj1 (recorded_attempts_wellformed _ sample_reachable) 7 s a Hs Ha)
      as (n & Hn & _).
    exists s, a, n. split; [exact Hs |]. split; [exact Ha | exact Hn].
  - destruct (proj2 (recorded_attempts_wellformed _ sample_finished_reachable)
                (finalize s 140) a Hr Ha') as (n & Hn & _).
    exists (finalize s 140), a, n. split; [exact Hr |]. split; [exact Ha' | exact Hn].
Defined.

(** X5. In a reachable state every question kept with its expected answer
    is a pair [generate_question] returns for some draws: the question a
    live session shows, the pair in every attempt of a live session and
    the pair in every attempt of a stored result.  All these expected
    answers therefore lie between 0 and 99. *)
Theorem stored_problems_are_generated (w : World) :
  reachable w ->
  (forall u s,
     get_session u w = Some s ->
     ((exists d, generate_question d =
                   (GameSession.current_question s, GameSession.expected_answer s)) /\
      0 <= GameSession.expected_answer s <= 99) /\
     (forall a,
        In a (GameResult.attempts (GameSession.game_result s)) ->
        (exists d, generate_question d =
                     (Attempt.question_text a, Attempt.expected_answer a)) /\
        0 <= Attempt.expected_answer a <= 99)) /\
  (forall r a,
     In r (db.game_results (storage w)) ->
     In a (GameResult.attempts r) ->
     (exists d, generate_question d =
                  (Attempt.question_text a, Attempt.expected_answer a)) /\
     0 <= Attempt.expected_answer a <= 99).
Proof.
  intros Hw. destruct (reachable_world_ok w Hw) as [Hlive Hres].
  assert (Hrange : forall q k, generated q k -> 0 <= k <= 99).
  { intros q k [d Hd]. unfold generate_question in Hd. injection Hd as _ <-.
    apply generate_answer_range. }
  split.
  - intros u s Hs.
    destruct (Hlive u s Hs) as (_ & _ & _ & _ & _ & _ & _ & Hg & Hall & _).
    split.
    + split; [exact Hg | eapply Hrange; exact Hg].
    + intros a Ha. rewrite List.Forall_forall in Hall.
      destruct (Hall a Ha) as (_ & Hga).
      split; [exact Hga | eapply Hrange; exact Hga].
  - intros r a Hr Ha. rewrite List.Forall_forall in Hres.
    destruct (Hres r Hr) as (_ & _ & _ & _ & Hall).
    rewrite List.Forall_forall in Hall.
    destruct (Hall a Ha) as (_ & Hga).
    split; [exact Hga | eapply Hrange; exact Hga].
Qed.

Lemma stored_problems_are_generated_witness :
  (exists s,
     get_session 7 (play 7 sample_run sample_world) = Some s /\
     0 <= GameSession.expected_answer s <= 99) /\
  (exists r a,
     In r (db.game_results (storage sample_finished)) /\
     In a (GameResult.attempts r) /\
     Attempt.question_text a = py "40 + 2" /\
     (exists d, generate_question d =
                  (Attempt.question_text a, Attempt.expected_answer a)) /\
     0 <= Attempt.expected_answer a <= 99).
Proof.
  pose (s := answered (answered (answered
               (GameSession.mk 7 (py "40 + 2") 42 0 1 0 160 (GameResult.new 7 100)
                  (Some (mkTimerTask 7 160)))
               42 110 (mkDraws 3 8 11)) 11 120 (mkDraws 2 11 9)) 99 130
               (mkDraws 1 50 20)).
  pose (a := Attempt.mk (py "40 + 2") 42 (Some 42) true 110).
  assert (Hs : get_session 7 (play 7 sample_run sample_world) = Some s)
    by (vm_compute; reflexivity).
  assert (Hr : In (finalize s 140) (db.game_results (storage sample_finished)))
    by (vm_compute; left; reflexivity).
  assert (Ha : In a (GameResult.attempts (finalize s 140)))
    by (vm_compute; left; reflexivity).
  split.
  - destruct (proj1 (stored_problems_are_generated _ sample_reachable) 7 s Hs)
      as ((_ & Hrange) & _).
    exists s. split; [exact Hs | exact Hrange].
  - destruct (proj2 (stored_problems_are_generated _ sample_finished_reachable)
                (finalize s 140) a Hr Ha) as (Hg & Hrange).
    exists (finalize s 140), a.
    split; [exact Hr |]. split; [exact Ha |]. split; [reflexivity |].
    split; [exact Hg | exact Hrange].
Defined.

(** X6. In a reachable state the session stored under a user id carries
    that id, in its own [user_id] and in its result record, and its timer
    task, if it has one, was started for this user and for the end time
    of this session. *)
Theorem session_identity (w : World) (u : Z) (s : GameSession.t) :
  reachable w ->
  get_session u w = Some s ->
  GameSession.user_id s = u /\
  GameResult.user_telegram_id (GameSession.game_result s) = u /\
  (GameSession.task s = None \/
   GameSession.task s = Some (mkTimerTask u (GameSession.end_time s))).
Proof.
  intros Hw Hs. destruct (reachable_world_ok w Hw) as [Hlive _].
  destruct (Hlive u s Hs) as (Hu & Hr & _ & _ & _ & _ & _ & _ & _ & Htask).
  auto.
Qed.

Lemma session_identity_witness :
  exists s,
    get_session 7 (play 7 sample_run sample_world) = Some s /\
    GameSession.user_id s = 7 /\
    GameResult.user_telegram_id (GameSession.game_result s) = 7 /\
    GameSession.task s = Some (mkTimerTask 7 160).
Proof.
  eexists. split; [vm_compute; reflexivity |].
  edestruct (session_identity (play 7 sample_run sample_world) 7)
    as (Hu & Hr & _).
  - exact sample_reachable.
  - vm_compute. reflexivity.
  - split; [exact Hu |]. split; [exact Hr | reflexivity].
Defined.

(** X7. The game can always be answered: in a reachable state, before the
    end of a live session, the decimal text of the expected answer is
    accepted and marked correct, and raises the score by one. *)
Theorem expected_answer_is_accepted (w : World) (u : Z) (s : GameSession.t)
    (now : timestamp) (d : Draws) :
  reachable w ->
  get_session u w = Some s ->
  now < GameSession.end_time s ->
  exists s',
    process_answer u (str_of_int (GameSession.expected_answer s)) now d w =
      (Accepted true (g_question (generate d)),
       mkWorld (<[u := s']> (active_sessions w)) (storage w)) /\
    GameSession.score s' = GameSession.score s + 1.
Proof.
  intros Hw Hs Hnow.
  destruct (reachable_world_ok w Hw) as [Hlive _].
  destruct (Hlive u s Hs) as (_ & _ & _ & _ & _ & _ & _ & [d0 Hd0] & _).
  assert (Hrange : 0 <= GameSession.expected_answer s <= 99).
  { unfold generate_question in Hd0. injection Hd0 as _ <-.
    apply generate_answer_range. }
  pose proof (answer_text_reads_back _ Hrange) as Hp.
  exists (answered s (GameSession.expected_answer s) now d).
  rewrite (process_answer_valid u _ _ now d w s Hs Hnow Hp), Z.eqb_refl.
  split; [reflexivity |].
  destruct (answered_fields s (GameSession.expected_answer s) now d)
    as (_ & _ & _ & Hsc & _).
  rewrite Hsc, Z.eqb_refl. reflexivity.
Qed.

Lemma expected_answer_is_accepted_witness :
  exists s',
    fst (process_answer 7 (py "30") 150 (mkDraws 0 1 1)
           (play 7 sample_run sample_world))
      = Accepted true (py "1 + 1") /\
    GameSession.score s' = 4.
Proof.
  edestruct (expected_answer_is_accepted (play 7 sample_run sample_world) 7)
    with (now := 150) (d := mkDraws 0 1 1) as (s' & Hpa & Hsc).
  - exact sample_reachable.
  - vm_compute. reflexivity.
  - vm_compute. reflexivity.
  - exists s'. split; [exact (f_equal fst Hpa) | exact Hsc].
Defined.

(** ** Restarting a game *)

(** X8. After [force_end_game] a new game can always be started: whether
    or not the user had a live session, [start_game] then returns a fresh
    session (score 0, one question, no attempts, ending 60 seconds after
    the start) and registers it; the result of a session that was live is
    stored, completed at the instant of the forced end; and a second
    [force_end_game] changes nothing. *)
Theorem restart_after_force_end (u : Z) (un fn ln : option pystr) (cb : bool)
    (t now t' : timestamp) (d : Draws) (w : World) :
  let w0 := force_end_game u t w in
  let w1 := snd (start_game u un fn ln cb now d w0) in
  (exists s,
     fst (start_game u un fn ln cb now d w0) = Some s /\
     get_session u w1 = Some s /\
     GameSession.score s = 0 /\ GameSession.total_questions s = 1 /\
     GameSession.correct_answers s = 0 /\
     GameResult.attempts (GameSession.game_result s) = [] /\
     GameSession.end_time s = now + 60) /\
  db.game_results (storage w1) =
    db.game_results (storage w)
    ++ match get_session u w with
       | Some s0 => [finalize s0 t]
       | None => []
       end /\
  force_end_game u t' w0 = w0.
Proof.
  intros w0 w1.
  assert (Hgone : active_sessions w0 !! u = None).
  { subst w0. unfold force_end_game.
    destruct (active_sessions w !! u) as [s0 |] eqn:Hs; [| exact Hs].
    rewrite (end_game_live _ _ _ _ Hs). cbn [snd active_sessions].
    apply lookup_delete_eq. }
  subst w1. rewrite (start_game_fresh u un fn ln cb now d w0 Hgone).
  cbn [fst snd]. split; [| split].
  - eexists. split; [reflexivity |]. unfold get_session. cbn [active_sessions].
    rewrite lookup_insert_eq. cbn. repeat split.
  - cbn [storage]. rewrite get_or_create_user_results.
    subst w0. unfold force_end_game, get_session.
    destruct (active_sessions w !! u) as [s0 |] eqn:Hs.
    + rewrite (end_game_live _ _ _ _ Hs). reflexivity.
    + now rewrite app_nil_r.
  - unfold force_end_game at 1. now rewrite Hgone.
Qed.

(** ** When results are stored *)

(** X23. A result is stored exactly when a session ends.  Every call
    either leaves the stored results as they are, or appends one result:
    the finalized record of the session of the user the call is made for,
    which was live before the call and is gone after it.  A call after
    which that user still has a session, or before which the user had
    none, stores nothing. *)
Theorem results_stored_when_session_ends (c : Call) (w : World) :
  let u := call_user c in
  let w' := run_call c w in
  (db.game_results (storage w') = db.game_results (storage w) /\
   (get_session u w = None \/ is_Some (get_session u w'))) \/
  (exists s t,
     get_session u w = Some s /\ get_session u w' = None /\
     db.game_results (storage w') = db.game_results (storage w) ++ [finalize s t]).
Proof.
  intros u w'. subst u w'. unfold get_session.
  assert (Hend : forall u now,
    (db.game_results (storage (snd (end_game u now w))) =
       db.game_results (storage w) /\
     (active_sessions w !! u = None \/
      is_Some (active_sessions (snd (end_game u now w)) !! u))) \/
    (exists s t,
       active_sessions w !! u = Some s /\
       active_sessions (snd (end_game u now w)) !! u = None /\
       db.game_results (storage (snd (end_game u now w))) =
         db.game_results (storage w) ++ [finalize s t])).
  { intros u now. destruct (active_sessions w !! u) as [s |] eqn:Hs.
    - right. exists s, now. rewrite (end_game_live _ _ _ _ Hs).
      cbn [snd active_sessions storage].
      split; [reflexivity |]. split; [apply lookup_delete_eq | reflexivity].
    - left. rewrite (end_game_none _ _ _ Hs). auto. }
  destruct c; cbn [run_call call_user].
  - left. destruct (active_sessions w !! user_id) as [s |] eqn:Hs.
    + rewrite (start_game_active _ _ _ _ _ _ _ _ _ Hs). cbn [snd].
      rewrite Hs. eauto.
    + rewrite (start_game_fresh user_id username first_name last_name
                 end_callback now d w Hs).
      cbn [snd active_sessions storage].
      rewrite get_or_create_user_results, lookup_insert_eq. eauto.
  - destruct (process_answer_cases user_id user_answer now d w)
      as [[Hs ->] | [(s & Hs & _ & ->) | [(s & Hs & _ & _ & ->) | (s & n & Hs & _ & _ & ->)]]];
      cbn [snd].
    + left. auto.
    + apply Hend.
    + left. rewrite Hs. eauto.
    + left. cbn [active_sessions storage]. rewrite lookup_insert_eq. eauto.
  - apply Hend.
  - unfold force_end_game.
    destruct (active_sessions w !! user_id) as [s |] eqn:Hs.
    + rewrite <- Hs. apply Hend.
    + left. auto.
Qed.

(** ** The tuple [process_answer] returns *)

(** X9. In the tuple [(is_valid_number, error_message, next_question,
    was_correct)] the next question and the correctness mark are present
    exactly when [is_valid_number] is true, and then there is no error
    message; [is_valid_number] is true exactly when the user has a live
    session, the clock has not reached its end and the trimmed text reads
    as an integer; when it is false, no session has changed: every session
    of the state after the call was there, identical, before. *)
Theorem answer_tuple_shape (u : Z) (txt : pystr) (now : timestamp) (d : Draws)
    (w : World) (valid : bool) (err : option ErrorMessage)
    (next : option pystr) (mark : option bool) :
  fst (process_answer u txt now d w) = (valid, err, next, mark) ->
  (valid = true <-> is_Some next) /\
  (valid = true <-> is_Some mark) /\
  (valid = true -> err = None) /\
  (valid = true <->
     exists s n, get_session u w = Some s /\ now < GameSession.end_time s /\
                 py_int (strip txt) = Some n) /\
  (valid = false ->
     forall u' s', get_session u' (snd (process_answer u txt now d w)) = Some s' ->
                   get_session u' w = Some s').
Proof.
  unfold get_session.
  destruct (process_answer_cases u txt now d w)
    as [[Hs ->] | [(s & Hs & Hnow & ->) | [(s & Hs & Hnow & Hp & ->) | (s & n & Hs & Hnow & Hp & ->)]]];
    cbn [fst snd]; intros [= <- <- <- <-].
  - repeat split; try discriminate; try (intros [? [=]]); auto.
    intros (s & n & Hs' & _). congruence.
  - repeat split; try discriminate; try (intros [? [=]]); auto.
    + intros (s0 & n & Hs' & Hlt & _). assert (s0 = s) by congruence. subst. lia.
    + intros _ u' s'. rewrite (end_game_live _ _ _ _ Hs). cbn [snd active_sessions].
      rewrite lookup_delete_Some. tauto.
  - repeat split; try discriminate; try (intros [? [=]]); auto.
    intros (s0 & n & _ & _ & Hp'). congruence.
  - repeat split; try discriminate; eauto.
Qed.

Lemma answer_tuple_shape_witness :
  exists s n,
    get_session 7 sample_world = Some s /\ 110 < GameSession.end_time s /\
    py_int (strip (py " 42 ")) = Some n.
Proof.
  edestruct (answer_tuple_shape 7 (py " 42 ") 110 (mkDraws 3 8 11) sample_world)
    as (_ & _ & _ & Hiff & _).
  - vm_compute. reflexivity.
  - apply Hiff. reflexivity.
Defined.

(** ** The value of a generated question *)


(** ** The leaderboard, whatever the scores and the limit *)

Lemma fold_left_max_init (l : list Z) (a b : Z) :
  fold_left Z.max l (Z.max a b) = Z.max a (fold_left Z.max l b).
Proof.
  revert b. induction l as [| y l IH]; intros b; [reflexivity |].
  cbn. rewrite <- Z.max_assoc. apply IH.
Qed.

Lemma fold_max_floor (l : list Z) : fold_left Z.max l 0 = Z.max 0 (list_max l).
Proof.
  destruct l as [| x l]; [reflexivity |].
  cbn. apply fold_left_max_init.
Qed.

Lemma leaderboard_floor_rows (s : db.t) :
  map (fun '(user_id, stats) =>
         (display_name (users_dict (db.users s) !! user_id),
          best_score stats, total_games stats))
      (collect_stats (db.game_results s))
  = map (floor_row s) (player_ids (db.game_results s)).
Proof.
  rewrite collect_stats_tabulate. unfold tabulate.
  rewrite map_map. apply map_ext. intros u.
  unfold floor_row. rewrite users_dict_lookup. cbn.
  now rewrite fold_max_floor.
Qed.

Lemma slice_to_spec {A} (limit : Z) (l : list A) :
  slice_to limit l =
    if limit <? 0 then firstn (length l - Z.to_nat (- limit)) l
    else firstn (Z.to_nat limit) l.
Proof.
  unfold slice_to. destruct (Z.ltb_spec limit 0); [| reflexivity].
  f_equal. lia.
Qed.

(** X11. Whatever scores the stored results carry, the leaderboard is the
    stable ranking of the rows (display name, greatest of 0 and the user's
    scores, number of the user's results), one per user in the results:
    a best score is never shown below 0, the rows are sorted by best
    score and then games played, both descending, and rows of equal rank
    keep the order in which their users first appear.  A limit that is
    not negative keeps the first [limit] rows; a negative limit, by the
    slice [[:limit]], drops the last [-limit] rows instead. *)
Theorem leaderboard_any_scores (limit : Z) (s : db.t) :
  exists ranked,
    Permutation ranked (map (floor_row s) (player_ids (db.game_results s))) /\
    StronglySorted ranks_no_lower ranked /\
    (forall b g,
       List.filter (has_rank b g) ranked =
       List.filter (has_rank b g)
         (map (floor_row s) (player_ids (db.game_results s)))) /\
    get_leaderboard limit s =
      (if limit <? 0 then firstn (length ranked - Z.to_nat (- limit)) ranked
       else firstn (Z.to_nat limit) ranked).
Proof.
  exists (list_sort (map (floor_row s) (player_ids (db.game_results s)))).
  split; [apply list_sort_perm |]. split; [apply list_sort_sorted |].
  split; [intros b g; apply list_sort_stable |].
  unfold get_leaderboard, db.get_all_game_results, db.get_all_users.
  rewrite leaderboard_floor_rows. apply slice_to_spec.
Qed.

Lemma display_name_nonempty (p : option User.t) : display_name p <> [].
Proof.
  unfold display_name.
  destruct p as [u |].
  - destruct (User.username u) as [[| c n] |];
      try discriminate;
      destruct (User.first_name u) as [[| c' n'] |]; discriminate.
  - discriminate.
Qed.

Lemma In_slice_to {A} (limit : Z) (l : list A) (x : A) :
  In x (slice_to limit l) -> In x l.
Proof.
  assert (Hfirst : forall n, In x (firstn n l) -> In x l).
  { intros n H. rewrite <- (firstn_skipn n l). apply in_or_app. now left. }
  unfold slice_to. destruct (limit <? 0); apply Hfirst.
Qed.

(** X12. Every row of a leaderboard, for any storage and any limit, has a
    name that is not empty, a best score that is not negative and at
    least one game, and belongs to a user who appears in the results. *)
Theorem leaderboard_rows_sane (limit : Z) (s : db.t) (row : Row) :
  In row (get_leaderboard limit s) ->
  fst (fst row) <> [] /\ 0 <= row_best row /\ 1 <= row_games row /\
  exists u, In u (map GameResult.user_telegram_id (db.game_results s)) /\
            row = floor_row s u.
Proof.
  unfold get_leaderboard, db.get_all_game_results, db.get_all_users.
  rewrite leaderboard_floor_rows. intros Hin.
  apply In_slice_to in Hin.
  apply (Permutation_in _ (list_sort_perm _)) in Hin.
  apply in_map_iff in Hin as (u & <- & Hu).
  unfold floor_row, row_best, row_games. cbn [fst snd].
  split; [apply display_name_nonempty |].
  split; [lia |].
  split.
  - pose proof (scores_of_player u _ Hu) as Hne.
    unfold scores_of in Hne.
    destruct (results_of u (db.game_results s)); [contradiction | cbn; lia].
  - exists u. split; [| reflexivity].
    unfold player_ids in Hu. exact (proj1 (first_occurrences_In _ _) Hu).
Qed.

Lemma leaderboard_rows_sane_witness :
  0 <= row_best (py "userA", 7, 2) /\ 1 <= row_games (py "userA", 7, 2).
Proof.
  edestruct (leaderboard_rows_sane 10 scenario (py "userA", 7, 2))
    as (_ & Hb & Hg & _).
  - vm_compute. left. reflexivity.
  - split; [exact Hb | exact Hg].
Defined.

(** X13. The number of rows: with [n] users in the results, a limit that
    is not negative gives [min(limit, n)] rows, a negative limit
    [max(0, n + limit)] rows; in particular limit 0 gives no row. *)
Theorem leaderboard_length (limit : Z) (s : db.t) :
  let n := Z.of_nat (length (player_ids (db.game_results s))) in
  Z.of_nat (length (get_leaderboard limit s)) =
    if limit <? 0 then Z.max 0 (n + limit) else Z.min limit n.
Proof.
  intros n. unfold get_leaderboard, db.get_all_game_results, db.get_all_users.
  rewrite leaderboard_floor_rows. unfold slice_to.
  assert (Hlen : length (list_sort (map (floor_row s)
                           (player_ids (db.game_results s)))) =
                 length (player_ids (db.game_results s))).
  { rewrite (Permutation_length (list_sort_perm _)). apply length_map. }
  destruct (Z.ltb_spec limit 0); rewrite List.length_firstn, Hlen; subst n; lia.
Qed.

Lemma sum_games_perm (l l' : list Row) :
  Permutation l l' -> sum_games l = sum_games l'.
Proof.
  unfold sum_games. induction 1; cbn in *; lia.
Qed.

Lemma dict_mem_set {V} (k : Z) (v : V) (d : odict V) :
  dict_mem k (dict_set k v d) = true.
Proof.
  induction d as [| [k' v'] d IH]; cbn.
  - now rewrite Z.eqb_refl.
  - destruct (Z.eqb_spec k' k) as [-> | Hne]; cbn.
    + now rewrite Z.eqb_refl.
    + rewrite IH. apply orb_true_r.
Qed.

(** The games counted in a dictionary of statistics. *)
Lemma count_result_games (d : odict Stats) (r : GameResult.t) :
  fold_right (fun kv acc => total_games (snd kv) + acc) 0 (count_result d r)
  = fold_right (fun kv acc => total_games (snd kv) + acc) 0 d + 1.
Proof.
  unfold count_result.
  set (u := GameResult.user_telegram_id r).
  set (f := fun s0 => mkStats (Z.max (best_score s0) (GameResult.score r))
                              (total_games s0 + 1)).
  assert (Halter : forall e : odict Stats,
             dict_mem u e = true ->
             fold_right (fun kv acc => total_games (snd kv) + acc) 0
                        (dict_alter f u e)
             = fold_right (fun kv acc => total_games (snd kv) + acc) 0 e + 1).
  { induction e as [| [k' v'] e IH]; cbn; [discriminate |].
    destruct (Z.eqb_spec k' u) as [-> | Hne]; cbn.
    - intros _. lia.
    - intros He. rewrite (IH He). lia. }
  assert (Hset : forall e : odict Stats,
             dict_mem u e = false ->
             fold_right (fun kv acc => total_games (snd kv) + acc) 0
                        (dict_set u (mkStats 0 0) e)
             = fold_right (fun kv acc => total_games (snd kv) + acc) 0 e).
  { induction e as [| [k' v'] e IH]; cbn; [reflexivity |].
    destruct (Z.eqb_spec k' u) as [-> | Hne]; cbn; [discriminate |].
    intros He. now rewrite (IH He). }
  destruct (dict_mem u d) eqn:Hmem.
  - now apply Halter.
  - rewrite Halter by apply dict_mem_set. now rewrite Hset.
Qed.

Lemma collect_stats_games (results : list GameResult.t) :
  fold_right (fun kv acc => total_games (snd kv) + acc) 0 (collect_stats results)
  = Z.of_nat (length results).
Proof.
  unfold collect_stats.
  induction results as [| r rs IH] using rev_ind; [reflexivity |].
  rewrite fold_left_app, length_app. cbn [fold_left length].
  rewrite count_result_games, IH. lia.
Qed.

(** X14. When the limit is at least the number of users in the results,
    the games-played column of the leaderboard adds up to the number of
    stored results: every result is counted for exactly one row. *)
Theorem leaderboard_counts_every_game (limit : Z) (s : db.t) :
  Z.of_nat (length (player_ids (db.game_results s))) <= limit ->
  sum_games (get_leaderboard limit s) = Z.of_nat (length (db.game_results s)).
Proof.
  intros Hl. unfold get_leaderboard, db.get_all_game_results, db.get_all_users.
  set (rows := map _ (collect_stats (db.game_results s))).
  rewrite slice_to_firstn by lia.
  rewrite List.firstn_all2.
  2:{ rewrite (Permutation_length (list_sort_perm rows)). subst rows.
      rewrite length_map, collect_stats_tabulate. unfold tabulate.
      rewrite length_map. lia. }
  rewrite (sum_games_perm _ _ (list_sort_perm rows)).
  rewrite <- collect_stats_games. subst rows.
  induction (collect_stats (db.game_results s)) as [| [k v] l IH];
    [reflexivity |].
  cbn. unfold row_games at 1. cbn. now rewrite <- IH.
Qed.

Lemma leaderboard_counts_every_game_witness :
  sum_games (get_leaderboard 10 scenario) = 3.
Proof.
  apply (leaderboard_counts_every_game 10 scenario). vm_compute. discriminate.
Defined.

(** ** The rendered leaderboard *)

Lemma length_ljust (width : nat) (s : pystr) :
  length (ljust width s) = Nat.max width (length s).
Proof.
  unfold ljust. rewrite length_app, repeat_length. lia.
Qed.

Lemma shown_name_length (username : option pystr) :
  (length (shown_name username) <= 18)%nat.
Proof.
  unfold shown_name.
  set (name := match username with Some (c :: n) => c :: n | _ => placeholder end).
  destruct (Nat.ltb_spec 18 (length name)) as [Hlong | Hshort]; [| exact Hshort].
  rewrite length_app, List.length_firstn.
  change (length (py "...")) with 3%nat. lia.
Qed.

Lemma format_row_parts (idx : Z) (username : option pystr) (best games : Z) :
  format_row idx (username, best, games) =
    (ljust 4 (str_of_int idx) ++ [32%N])
    ++ ljust 20 (shown_name username)
    ++ [32%N]
    ++ ljust 10 (str_of_int best)
    ++ [32%N] ++ ljust 6 (str_of_int games) ++ [10%N].
Proof. unfold format_row. now rewrite <- !app_assoc. Qed.

Lemma skipn_past {A} (l k : list A) (n : nat) :
  n = length l -> skipn n (l ++ k) = k.
Proof. intros ->. apply drop_app_length. Qed.

Lemma firstn_upto {A} (l k : list A) (n : nat) :
  n = length l -> firstn n (l ++ k) = l.
Proof. intros ->. apply take_app_length. Qed.

(** X15. The layout of a row [format_leaderboard] renders.  The row is as
    long as its three numbers need, each at least as wide as its column
    (4, 10 and 6), plus 24 characters: the name never widens it.  After
    the number of the row and one blank come exactly 20 characters for
    the name: a name of at most 18 characters (the placeholder for a
    missing or empty username) followed by blanks, a longer name as its
    first 15 characters, three dots and two blanks.  Then come a blank
    and the best score. *)
Theorem format_row_layout (idx : Z) (username : option pystr) (best games : Z) :
  let name := match username with
              | Some (c :: n) => c :: n
              | _ => placeholder
              end in
  let row := format_row idx (username, best, games) in
  let off := (Nat.max 4 (length (str_of_int idx)) + 1)%nat in
  length row =
    (Nat.max 4 (length (str_of_int idx)) + Nat.max 10 (length (str_of_int best))
     + Nat.max 6 (length (str_of_int games)) + 24)%nat /\
  firstn (length (str_of_int idx)) row = str_of_int idx /\
  ((length name <= 18)%nat ->
   firstn 20 (skipn off row) = name ++ repeat 32%N (20 - length name)) /\
  ((18 < length name)%nat ->
   firstn 20 (skipn off row) = firstn 15 name ++ py "..." ++ py "  ") /\
  firstn (length (str_of_int best)) (skipn (off + 21) row) = str_of_int best.
Proof.
  intros name row off.
  assert (Hrow : row = (ljust 4 (str_of_int idx) ++ [32%N])
                       ++ ljust 20 (shown_name username)
                       ++ [32%N]
                       ++ ljust 10 (str_of_int best)
                       ++ [32%N] ++ ljust 6 (str_of_int games) ++ [10%N])
    by apply format_row_parts.
  assert (Hoff : off = length (ljust 4 (str_of_int idx) ++ [32%N])).
  { subst off. rewrite length_app, length_ljust. reflexivity. }
  pose proof (shown_name_length username) as H18.
  assert (H20 : length (ljust 20 (shown_name username)) = 20%nat).
  { rewrite length_ljust. lia. }
  assert (Hname : firstn 20 (skipn off row) = ljust 20 (shown_name username)).
  { rewrite Hrow, (skipn_past _ _ off Hoff). now apply firstn_upto. }
  split; [| split; [| split; [| split]]].
  - rewrite Hrow, !length_app, !length_ljust. cbn [length]. lia.
  - rewrite Hrow. unfold ljust. rewrite <- !app_assoc. now apply firstn_upto.
  - intros Hshort. rewrite Hname. unfold ljust, shown_name. fold name.
    destruct (Nat.ltb_spec 18 (length name)); [lia | reflexivity].
  - intros Hlong. rewrite Hname. unfold ljust, shown_name. fold name.
    destruct (Nat.ltb_spec 18 (length name)); [| lia].
    rewrite <- app_assoc. do 2 f_equal.
    rewrite length_app, List.length_firstn.
    change (length (py "...")) with 3%nat.
    replace (20 - (Nat.min 15 (length name) + 3))%nat with 2%nat by lia.
    reflexivity.
  - assert (Hrow2 : row =
              ((ljust 4 (str_of_int idx) ++ [32%N])
               ++ ljust 20 (shown_name username) ++ [32%N])
              ++ str_of_int best
              ++ repeat 32%N (10 - length (str_of_int best))
              ++ [32%N] ++ ljust 6 (str_of_int games) ++ [10%N]).
    { rewrite Hrow. unfold ljust. now rewrite <- !app_assoc. }
    rewrite Hrow2, skipn_past; [now apply firstn_upto |].
    rewrite Hoff, !length_app, H20. cbn [length]. lia.
Qed.

Lemma format_row_length (idx : Z) (x : BoardItem) :
  length (format_row idx x) =
    (Nat.max 4 (length (str_of_int idx))
     + Nat.max 10 (length (str_of_int (snd (fst x))))
     + Nat.max 6 (length (str_of_int (snd x))) + 24)%nat.
Proof.
  destruct x as [[username best] games]. cbn [fst snd].
  rewrite format_row_parts, !length_app, !length_ljust. cbn [length].
  pose proof (shown_name_length username). lia.
Qed.

Lemma format_rows_length_ge (data : list BoardItem) :
  forall idx, (44 * length data <= length (format_rows idx data))%nat.
Proof.
  induction data as [| x data IH]; intros idx; cbn [format_rows length]; [lia |].
  rewrite length_app, format_row_length. specialize (IH (idx + 1)). lia.
Qed.

Lemma format_rows_length_fit (data : list BoardItem) :
  forall idx,
    (forall k, idx <= k < idx + Z.of_nat (length data) ->
               (length (str_of_int k) <= 4)%nat) ->
    Forall (fun x => (length (str_of_int (snd (fst x))) <= 10)%nat /\
                     (length (str_of_int (snd x)) <= 6)%nat) data ->
    length (format_rows idx data) = (44 * length data)%nat.
Proof.
  induction data as [| x data IH]; intros idx Hidx Hfit;
    cbn [format_rows length] in *; [reflexivity |].
  inversion Hfit as [| ? ? [Hb Hg] Hrest]; subst.
  rewrite length_app, format_row_length, (IH (idx + 1)).
  - pose proof (Hidx idx ltac:(lia)). lia.
  - intros k Hk. apply Hidx. lia.
  - assumption.
Qed.

(** X16. The size of the rendered leaderboard.  For a list that is not
    empty the text has at least 117 characters plus 44 per row, and
    exactly that many when every row number (the rows are numbered from
    1), best score and games count is written with at most 4, 10 and 6
    characters: the length of the names does not count. *)
Theorem format_leaderboard_size (data : list BoardItem) :
  data <> [] ->
  (117 + 44 * length data <= length (format_leaderboard data))%nat /\
  ((forall k, 1 <= k <= Z.of_nat (length data) ->
              (length (str_of_int k) <= 4)%nat) ->
   Forall (fun x => (length (str_of_int (snd (fst x))) <= 10)%nat /\
                    (length (str_of_int (snd x)) <= 6)%nat) data ->
   length (format_leaderboard data) = (117 + 44 * length data)%nat).
Proof.
  intros Hne.
  assert (Hlen : length (format_leaderboard data) =
                 (117 + length (format_rows 1 data))%nat).
  { destruct data as [| x data]; [congruence |].
    unfold format_leaderboard. rewrite !length_app, repeat_length.
    change (length board_title) with 23%nat.
    change (length code_fence) with 3%nat.
    change (length board_header) with 44%nat.
    cbn [length]. lia. }
  rewrite Hlen. split.
  - pose proof (format_rows_length_ge data 1). lia.
  - intros Hidx Hfit. rewrite (format_rows_length_fit data 1); [lia | | exact Hfit].
    intros k Hk. apply Hidx. lia.
Qed.

Lemma format_leaderboard_size_witness :
  length (format_leaderboard [(Some (py "userA"), 7, 2); (Some (py "userB"), 5, 1)])
  = 205%nat.
Proof.
  edestruct (format_leaderboard_size
               [(Some (py "userA"), 7, 2); (Some (py "userB"), 5, 1)]) as [_ H].
  - discriminate.
  - apply H.
    + intros k Hk. cbn [length] in Hk.
      assert (Hcases : k = 1 \/ k = 2) by lia.
      destruct Hcases as [-> | ->]; vm_compute; lia.
    + repeat constructor; cbn; lia.
Defined.

(** ** Dictionaries of the models *)

(** X17. A user written by [to_dict] and read back by [from_dict] is the
    same user, whenever it is read: the stored creation time is kept and
    the current instant is not used. *)
Theorem user_dict_round_trip (now : timestamp) (u : User.t) :
  UserDict.from_dict now (UserDict.to_dict u) = Loaded u.
Proof.
  destruct u as [id un fn ln t].
  destruct un, fn, ln; reflexivity.
Qed.

Lemma attempt_from_to_dict (now : timestamp) (a : Attempt.t) :
  AttemptDict.from_dict now (AttemptDict.to_dict a) = Loaded a.
Proof.
  destruct a as [q e ua c t].
  destruct ua; reflexivity.
Qed.

(** X18. An attempt written by [to_dict] and read back by [from_dict] is
    the same attempt, with its answer time, whenever it is read; so two
    attempts with the same dictionary are the same attempt. *)
Theorem attempt_dict_round_trip (now : timestamp) (a : Attempt.t) :
  AttemptDict.from_dict now (AttemptDict.to_dict a) = Loaded a /\
  (forall b, AttemptDict.to_dict a = AttemptDict.to_dict b -> a = b).
Proof.
  split; [apply attempt_from_to_dict |].
  intros b Hab.
  pose proof (attempt_from_to_dict now a) as Ha.
  rewrite Hab, attempt_from_to_dict in Ha. now injection Ha.
Qed.

Lemma load_attempts_to_dict (now : timestamp) (l : list Attempt.t) :
  GameResultDict.load_attempts now
    (map (fun a => VDict (AttemptDict.to_dict a)) l) = Loaded l.
Proof.
  induction l as [| a l IH]; [reflexivity |].
  cbn [map GameResultDict.load_attempts GameResultDict.load_attempt].
  now rewrite attempt_from_to_dict, IH.
Qed.

Lemma game_result_from_to_dict (now : timestamp) (r : GameResult.t) :
  GameResultDict.from_dict now (GameResultDict.to_dict r) =
    (Loaded r,
     List.filter (fun kv => negb (String.eqb (fst kv) "attempts"))
                 (GameResultDict.to_dict r)).
Proof.
  destruct r as [u sc tq ca st fin att].
  unfold GameResultDict.from_dict, GameResultDict.to_dict, dict_pop.
  cbn [dict_lookup String.eqb Ascii.eqb Bool.eqb fst snd List.filter negb
       GameResult.user_telegram_id GameResult.score GameResult.total_questions
       GameResult.correct_answers GameResult.started_at GameResult.finished_at
       GameResult.attempts].
  cbn [GameResultDict.iterate_attempts]. rewrite load_attempts_to_dict.
  destruct fin; reflexivity.
Qed.

(** X19. A game result written by [to_dict] and read back by [from_dict]
    is the same result with all its attempts, and the dictionary given to
    [from_dict] comes out without its [attempts] key, the other six items
    in place. *)
Theorem game_result_dict_round_trip (now : timestamp) (r : GameResult.t) :
  fst (GameResultDict.from_dict now (GameResultDict.to_dict r)) = Loaded r /\
  snd (GameResultDict.from_dict now (GameResultDict.to_dict r)) =
    [ ("user_telegram_id"%string, VInt (GameResult.user_telegram_id r));
      ("score"%string, VInt (GameResult.score r));
      ("total_questions"%string, VInt (GameResult.total_questions r));
      ("correct_answers"%string, VInt (GameResult.correct_answers r));
      ("started_at"%string, VStamp (GameResult.started_at r));
      ("finished_at"%string, of_opt_stamp (GameResult.finished_at r)) ].
Proof.
  rewrite game_result_from_to_dict. split; reflexivity.
Qed.

(** X20. [GameResult.from_dict] consumes its argument: reading the same
    dictionary a second time succeeds but gives the result without any
    attempt, the first call having popped them. *)
Theorem game_result_second_load_loses_attempts (now now' : timestamp)
    (r : GameResult.t) :
  let data' := snd (GameResultDict.from_dict now (GameResultDict.to_dict r)) in
  GameResultDict.from_dict now' data' =
    (Loaded (GameResult.mk (GameResult.user_telegram_id r) (GameResult.score r)
               (GameResult.total_questions r) (GameResult.correct_answers r)
               (GameResult.started_at r) (GameResult.finished_at r) []),
     data').
Proof.
  intros data'. subst data'. rewrite game_result_from_to_dict. cbn [snd].
  destruct r as [u sc tq ca st fin att]. destruct fin; reflexivity.
Qed.

Lemma existsb_eqb_In_string (k : string) (l : list string) :
  existsb (String.eqb k) l = true -> In k l.
Proof.
  rewrite existsb_exists. intros (x & Hx & Heq).
  apply String.eqb_eq in Heq. now subst.
Qed.

Lemma keywords_ok_unknown (fields required : list string) (data : pydict)
    (k : string) (v : pyval) :
  In (k, v) data -> ~ In k fields -> keywords_ok fields required data = false.
Proof.
  intros Hin Hk. unfold keywords_ok.
  destruct (forallb _ data) eqn:Hall; [| reflexivity].
  exfalso. rewrite forallb_forall in Hall.
  specialize (Hall (k, v) Hin). cbn in Hall.
  apply Hk. now apply existsb_eqb_In_string.
Qed.

(** X21. A dictionary with a key that is no field of the class makes
    [from_dict] raise [TypeError], for users, attempts and game results
    alike, whatever else the dictionary holds. *)
Theorem unknown_keyword_raises (now : timestamp) (data : pydict)
    (k : string) (v : pyval) :
  In (k, v) data ->
  (~ In k UserDict.fields -> UserDict.from_dict now data = RaisesTypeError) /\
  (~ In k AttemptDict.fields -> AttemptDict.from_dict now data = RaisesTypeError) /\
  (~ In k GameResultDict.fields ->
   fst (GameResultDict.from_dict now data) = RaisesTypeError).
Proof.
  intros Hin. split; [| split]; intros Hk.
  - unfold UserDict.from_dict.
    now rewrite (keywords_ok_unknown _ _ data k v Hin Hk).
  - unfold AttemptDict.from_dict.
    now rewrite (keywords_ok_unknown _ _ data k v Hin Hk).
  - unfold GameResultDict.from_dict, dict_pop. cbn [fst].
    rewrite (keywords_ok_unknown _ _ _ k v); [reflexivity | | exact Hk].
    apply List.filter_In. split; [exact Hin |]. cbn [fst].
    destruct (String.eqb_spec k "attempts") as [-> | _]; [| reflexivity].
    exfalso. apply Hk. unfold GameResultDict.fields. cbn. tauto.
Qed.

Lemma unknown_keyword_raises_witness :
  UserDict.from_dict 0
    [("telegram_id"%string, VInt 1); ("nickname"%string, VStr (py "ann"))]
  = RaisesTypeError.
Proof.
  edestruct (unknown_keyword_raises 0
               [("telegram_id"%string, VInt 1); ("nickname"%string, VStr (py "ann"))]
               "nickname" (VStr (py "ann"))) as (H & _).
  - right. left. reflexivity.
  - apply H. vm_compute. intuition discriminate.
Defined.

Lemma dict_lookup_filter_out (k : string) (d : pydict) :
  dict_lookup k (List.filter (fun kv => negb (String.eqb (fst kv) k)) d) = None.
Proof.
  induction d as [| [k' v] d IH]; [reflexivity |].
  cbn. destruct (String.eqb_spec k' k) as [-> | Hne]; cbn; [exact IH |].
  destruct (String.eqb_spec k' k); [contradiction | exact IH].
Qed.

Lemma dict_lookup_filter_other (k j : string) (d : pydict) :
  j <> k ->
  dict_lookup j (List.filter (fun kv => negb (String.eqb (fst kv) k)) d)
  = dict_lookup j d.
Proof.
  intros Hne. induction d as [| [k' v] d IH]; [reflexivity |].
  cbn. destruct (String.eqb_spec k' k) as [-> | Hk]; cbn.
  - destruct (String.eqb_spec k j); [congruence | exact IH].
  - now rewrite IH.
Qed.

Lemma load_attempts_raises (now : timestamp) (l : list pyval) (a : pydict) :
  In (VDict a) l ->
  AttemptDict.from_dict now a = RaisesTypeError ->
  GameResultDict.load_attempts now l = RaisesTypeError.
Proof.
  intros Hin Ha. induction l as [| x l IH]; [contradiction |].
  cbn [GameResultDict.load_attempts]. destruct Hin as [-> | Hin].
  - cbn [GameResultDict.load_attempt]. now rewrite Ha.
  - rewrite (IH Hin). destruct (GameResultDict.load_attempt now x); reflexivity.
Qed.

(** X22. [GameResult.from_dict] always takes the [attempts] key out of the
    dictionary it is given and leaves every other key with its value, also
    when it raises; and it raises [TypeError] as soon as one of the
    attempt dictionaries does, for instance for want of a required key. *)
Theorem game_result_from_dict_pops (now : timestamp) (data : pydict) :
  dict_lookup "attempts" (snd (GameResultDict.from_dict now data)) = None /\
  (forall k, k <> "attempts"%string ->
     dict_lookup k (snd (GameResultDict.from_dict now data)) = dict_lookup k data) /\
  (forall l a,
     dict_lookup "attempts" data = Some (VList l) ->
     In (VDict a) l ->
     AttemptDict.from_dict now a = RaisesTypeError ->
     fst (GameResultDict.from_dict now data) = RaisesTypeError).
Proof.
  unfold GameResultDict.from_dict, dict_pop. cbn [fst snd].
  split; [apply dict_lookup_filter_out |].
  split; [intros k Hk; now apply dict_lookup_filter_other |].
  intros l a Hl Hin Ha. rewrite Hl.
  destruct (negb (keywords_ok _ _ _)); [reflexivity |].
  cbn [GameResultDict.iterate_attempts].
  now rewrite (load_attempts_raises now l a Hin Ha).
Qed.

Lemma game_result_from_dict_pops_witness :
  fst (GameResultDict.from_dict 0
         [("user_telegram_id"%string, VInt 1);
          ("attempts"%string, VList [VDict [("correct"%string, VBool true)]])])
  = RaisesTypeError.
Proof.
  edestruct (game_result_from_dict_pops 0
         [("user_telegram_id"%string, VInt 1);
          ("attempts"%string, VList [VDict [("correct"%string, VBool true)]])])
    as (_ & _ & H).
  eapply H.
  - reflexivity.
  - left. reflexivity.
  - reflexivity.
Defined.
